(** * TorChat: onion proxy and onion router

    A shallow embedding of [onion_proxy/onion_proxy.go] and
    [onion_router/onion_router.go].  Go slices of bytes are [list byte],
    Go maps are [gmap], the RPC and standard-library calls the two programs
    make are the fields of the classes [Library] and [Network], and a Go
    function that may panic or end the process returns an [outcome] together
    with the trace of the calls it made. *)

From Stdlib Require Import ZArith Lia.
From stdpp Require Import base list gmap strings.


(* ===================================================================== *)
(** ** Bytes *)

Abbreviation byte := Byte.byte.

Definition bits8 : Type :=
  (bool * (bool * (bool * (bool * (bool * (bool * (bool * bool)))))))%type.

Definition xor_bits (a b : bits8) : bits8 :=
  let '(a0, (a1, (a2, (a3, (a4, (a5, (a6, a7))))))) := a in
  let '(b0, (b1, (b2, (b3, (b4, (b5, (b6, b7))))))) := b in
  (xorb a0 b0, (xorb a1 b1, (xorb a2 b2, (xorb a3 b3,
  (xorb a4 b4, (xorb a5 b5, (xorb a6 b6, xorb a7 b7))))))).

(** [a ^ b] on two bytes. *)
Definition byte_xor (a b : byte) : byte :=
  Byte.of_bits (xor_bits (Byte.to_bits a) (Byte.to_bits b)).

(** [crypto/subtle.XORBytes] as [cipher] uses it: the first
    [min (len src) (len out)] bytes of [src] xored with [out]. *)
Fixpoint xorBytes (src out : list byte) : list byte :=
  match src, out with
  | s :: src', o :: out' => byte_xor s o :: xorBytes src' out'
  | _, _ => []
  end.

(** [aes.BlockSize] *)
Definition BlockSize : nat := 16.

(** [make([]byte, n)] *)
Definition make_bytes (n : nat) : list byte := replicate n Byte.x00.

(** [copy(dst, src)]: overwrites the front of [dst], never grows it. *)
Definition copy_bytes (dst src : list byte) : list byte :=
  take (length dst) src ++ drop (length src) dst.

(* ===================================================================== *)
(** ** Outcomes and traces *)

(** Go's [error] values, by message. *)
Definition error : Type := string.

(** How a Go call ends: it returns, it panics, or the process is ended. *)
Inductive outcome (A : Type) : Type :=
| Ret (a : A)
| Panic (msg : string)
| Exit (msg : string).
Arguments Ret {A} a.
Arguments Panic {A} msg.
Arguments Exit {A} msg.

(** Modelled from the spec: package [shared] is not under src/; the records
    below have the fields the two programs read and write. *)
Record Onion : Type := mkOnion {
  Data : list byte;
  IsExitNode : bool;
  NextAddress : string
}.

Record Cell : Type := mkCell {
  CircuitId : N;
  CellData : list byte
}.

Record CircuitInfo : Type := mkCircuitInfo {
  CICircuitId : N;
  EncryptedSharedKey : list byte
}.

Record ChatMessage : Type := mkChatMessage {
  IRCServerAddr : string;
  Username : string;
  Message : string
}.

Record PollingMessage : Type := mkPollingMessage {
  PollIRCServerAddr : string;
  LastMessageId : Z
}.

(** The zero value of [shared.Onion], what [var currOnion shared.Onion] holds. *)
Definition zero_Onion : Onion := mkOnion [] false "".

(** Keys are opaque to the two programs; only their textual form is compared. *)
Definition rsa_PublicKey : Type := list byte.
Definition ecdsa_PublicKey : Type := list byte.

Record OnionRouterInfo : Type := mkOnionRouterInfo {
  Address : string;
  PubKey : rsa_PublicKey
}.

Record OnionRouterInfos : Type := mkOnionRouterInfos {
  SignerPubKey : option ecdsa_PublicKey;   (* [PubKey *ecdsa.PublicKey] *)
  Hash : list byte;
  SigR : Z;
  SigS : Z;
  ORInfos : list OnionRouterInfo
}.

(** What an RPC carries. *)
Inductive rpc_arg : Type :=
| ArgCell (c : Cell)
| ArgCircuitInfo (ci : CircuitInfo)
| ArgString (s : string)
| ArgInt (z : Z).

(** What a run does to the outside world, in order. *)
Inductive event : Type :=
| EvStderr (msg : string)
| EvDial (addr : string)
| EvCall (addr : string) (method : string) (arg : rpc_arg)
| EvClose (addr : string)
| EvSleep (ms : Z).

(** A computation: the trace so far and how it ended. *)
Record M (A : Type) : Type := mkM {
  trace : list event;
  result : outcome A
}.
Arguments mkM {A} trace result.
Arguments trace {A} m.
Arguments result {A} m.

Definition ret {A} (a : A) : M A := mkM [] (Ret a).

Definition bind {A B} (m : M A) (f : A -> M B) : M B :=
  match result m with
  | Ret a => mkM (trace m ++ trace (f a)) (result (f a))
  | Panic msg => mkM (trace m) (Panic msg)
  | Exit msg => mkM (trace m) (Exit msg)
  end.

Definition emit (e : event) : M unit := mkM [e] (Ret tt).
Definition panic {A} (msg : string) : M A := mkM [] (Panic msg).
Definition exit {A} (msg : string) : M A := mkM [] (Exit msg).

Notation "'do' x <- m ; k" := (bind m (fun x => k))
  (at level 10, x name, m at level 100, k at level 200,
   format "'[v' 'do'  x  <-  m ; '/' k ']'").
Notation "'run' m ; k" := (bind m (fun _ => k))
  (at level 10, m at level 100, k at level 200,
   format "'[v' 'run'  m ; '/' k ']'").

(** Go's run-time panics met in the two programs. *)
Definition nil_dereference : string :=
  "invalid memory address or nil pointer dereference".
Definition slice_out_of_range : string := "slice bounds out of range".

(* ===================================================================== *)
(** ** The libraries and the network *)

(** The standard-library and [util] functions the programs call.  The block
    cipher and the JSON codec stay abstract: every theorem below holds for any
    of them that meets the stated hypotheses. *)
Class Library : Type := {
  (** [cipher.Block.Encrypt] of the AES cipher made from a key *)
  aes_Encrypt : list byte -> list byte -> list byte;
  (** what the k-th [io.ReadFull(rand.Reader, iv)] delivers *)
  rand_Reader : nat -> list byte;
  (** [json.Marshal] and [json.Unmarshal] at [shared.Onion] *)
  json_Marshal_Onion : Onion -> list byte;
  json_Unmarshal_Onion : list byte -> Onion * option error;
  (** [json.Marshal] and [json.Unmarshal] at the chat and polling messages *)
  json_Marshal_ChatMessage : ChatMessage -> list byte;
  json_Unmarshal_ChatMessage : list byte -> ChatMessage;
  json_Unmarshal_PollingMessage : list byte -> PollingMessage;
  (** [util.PubKeyToString], [ecdsa.Verify] *)
  PubKeyToString : ecdsa_PublicKey -> string;
  ecdsa_Verify : ecdsa_PublicKey -> list byte -> Z -> Z -> bool;
  (** the k-th [util.GenerateAESKey()], [util.RSAEncrypt], [util.RSADecrypt] *)
  GenerateAESKey : nat -> list byte;
  RSAEncrypt : rsa_PublicKey -> list byte -> list byte;
  RSADecrypt : list byte -> list byte -> list byte
}.

(** The peers: what each dial and each remote call answers. *)
Class Network : Type := {
  rpc_Dial : string -> option error;
  call_GetNodes : OnionRouterInfos * option error;
  call_KeepNodeOnline : nat -> string -> option error;
  call_SendCircuitInfo : string -> CircuitInfo -> option error;
  call_DecryptChatMessageCell : string -> Cell -> option error;
  call_DecryptPollingCell : string -> Cell -> list string * option error;
  call_PublishMessage : string -> string -> option error;
  call_GetNewMessages : string -> Z -> list string * option error
}.

(** Modelled from the spec: [util.HandleFatalError] (package [util] is not
    under src/).  Section 7 of the spec has the errors the programs hand to
    it at start-up fatal to the process: a non-nil error ends the process,
    a nil one returns. *)
Definition HandleFatalError (msg : string) (err : option error) : M unit :=
  match err with
  | None => ret tt
  | Some e => exit msg
  end.

(** Modelled from the spec: [util.HandleNonFatalError] (package [util] is not
    under src/): the error is reported and the caller goes on. *)
Definition HandleNonFatalError (msg : string) (err : option error) : M unit :=
  match err with
  | None => ret tt
  | Some e => emit (EvStderr msg)
  end.

(* ===================================================================== *)
(** ** AES in CFB mode, as [crypto/aes] and [crypto/cipher] run it *)

(** [aes.NewCipher]: a key of 16, 24 or 32 bytes gives a cipher, any other
    length gives [nil] and a [KeySizeError]. *)
Definition aes_NewCipher (key : list byte) : option (list byte) * option error :=
  if bool_decide (length key = 16 \/ length key = 24 \/ length key = 32)
  then (Some key, None)
  else (None, Some "crypto/aes: invalid key size").

Section Programs.
Context {lib : Library} {net : Network}.

(** The loop of [cfb.XORKeyStream], entered once per cipher object so that
    every turn starts with a used-up key-stream block: the block is renewed
    from [next], xored into the front of [src], and [next] takes the
    ciphertext just seen.  [fuel] bounds the turns; [length src] is enough. *)
Fixpoint cfb_stream (decrypt : bool) (key : list byte) (fuel : nat)
    (next src : list byte) : list byte :=
  match fuel with
  | 0 => []
  | S fuel' =>
    match src with
    | [] => []
    | _ =>
      let out := copy_bytes (make_bytes BlockSize) (aes_Encrypt key next) in
      let next1 := if decrypt then copy_bytes next src else next in
      let dst := xorBytes src out in
      let next2 := if decrypt then next1 else copy_bytes next1 dst in
      dst ++ cfb_stream decrypt key fuel' next2 (drop (length dst) src)
    end
  end.

(** [cipher.NewCFBEncrypter(block, iv)] or [cipher.NewCFBDecrypter(block, iv)]
    followed by one [XORKeyStream(dst, src)] with [len(dst) = len(src)].  A
    [nil] block makes the constructor panic. *)
Definition cfb_XORKeyStream (decrypt : bool) (cipherkey : option (list byte))
    (iv src : list byte) : M (list byte) :=
  match cipherkey with
  | None => panic nil_dereference
  | Some key => ret (cfb_stream decrypt key (length src) iv src)
  end.

(* ===================================================================== *)
(** ** The onion proxy, [onion_proxy.go] *)

Record orInfo : Type := mkOrInfo {
  address : string;
  pubKey : rsa_PublicKey;
  sharedKey : list byte
}.

Record OnionProxy : Type := mkOnionProxy {
  addr : string;
  username : string;
  circuitId : N;
  ircServerAddr : string;
  ORInfoByHopNum : gmap nat orInfo;
  dirServer : string
}.

Definition directoryServerPubKey : string :=
  "0449e30da789d5b12a9487a96d70d69b6b8cbd6821d7a647f35c18a8d5f0969054ae3130e7a2a813363eb578747bc77048b700badea328df20ce68a58fcd0e4166f538f9393e0b4072d069cc4cc631271660dc5ebebb20531f11eeb4bd5aa6a5ca".

Definition notTrustedDirectoryServerError : error :=
  "Circuit received from non-trusted directory server".

(** [DialOR], the same in both programs but for the message. *)
Definition DialOR (msg : string) (ORAddr : string) : M unit :=
  run emit (EvDial ORAddr);
  HandleFatalError msg (rpc_Dial ORAddr).

(** One turn of the loop of [GetCircuitFromDServer], lines 160-180: the
    answer of [client.Call] and [ack] are not looked at. *)
Definition GetCircuit_hop (cid : N) (k : nat) (tbl : gmap nat orInfo)
    (hopNum : nat) (onionRouterInfo : OnionRouterInfo) : M (gmap nat orInfo) :=
  let sharedKey := GenerateAESKey (k + hopNum) in
  let encryptedSharedKey := RSAEncrypt (PubKey onionRouterInfo) sharedKey in
  let circuitInfo := mkCircuitInfo cid encryptedSharedKey in
  run DialOR "Could not dial onion router" (Address onionRouterInfo);
  run emit (EvCall (Address onionRouterInfo) "ORServer.SendCircuitInfo"
              (ArgCircuitInfo circuitInfo));
  let _ := call_SendCircuitInfo (Address onionRouterInfo) circuitInfo in
  run emit (EvClose (Address onionRouterInfo));
  ret (<[hopNum := mkOrInfo (Address onionRouterInfo) (PubKey onionRouterInfo)
                     sharedKey]> tbl).

Fixpoint GetCircuit_loop (cid : N) (k : nat) (tbl : gmap nat orInfo)
    (hopNum : nat) (infos : list OnionRouterInfo) : M (gmap nat orInfo) :=
  match infos with
  | [] => ret tbl
  | info :: rest =>
    do tbl' <- GetCircuit_hop cid k tbl hopNum info;
    GetCircuit_loop cid k tbl' (S hopNum) rest
  end.

(** [GetCircuitFromDServer]; [cid] is what [math_rand.Uint32()] gives and [k]
    counts the keys generated so far.  Returns the proxy and the error. *)
Definition GetCircuitFromDServer (op : OnionProxy) (cid : N) (k : nat)
    : M (OnionProxy * option error) :=
  let op1 := mkOnionProxy (addr op) (username op) cid (ircServerAddr op)
               (ORInfoByHopNum op) (dirServer op) in
  run emit (EvCall (dirServer op) "DServer.GetNodes" (ArgString ""));
  let '(ORSet, err) := call_GetNodes in
  run HandleFatalError "Could not get circuit from directory server" err;
  match SignerPubKey ORSet with
  | None => panic nil_dereference
  | Some pk =>
    if negb (String.eqb (PubKeyToString pk) directoryServerPubKey)
       || negb (ecdsa_Verify pk (Hash ORSet) (SigR ORSet) (SigS ORSet))
    then ret (op1, Some notTrustedDirectoryServerError)
    else
      do tbl <- GetCircuit_loop cid k (ORInfoByHopNum op1) 0 (ORInfos ORSet);
      ret (mkOnionProxy (addr op1) (username op1) (circuitId op1)
             (ircServerAddr op1) tbl (dirServer op1), None)
  end.

(** [GetNewCircuit] *)
Definition GetNewCircuit (op : OnionProxy) (cid : N) (k : nat)
    : M (OnionProxy * option error) :=
  do r <- GetCircuitFromDServer op cid k;
  match snd r with
  | Some err => ret (fst r, Some err)
  | None => ret (fst r, None)
  end.

(** The body of the loop of [OnionizeData] from the marshalling on, lines
    227-249: [unencryptedLayer] is serialised and encrypted under [key] with
    the IV of the [r]-th read of [rand.Reader].  [iv] is the front of
    [ciphertext], so what is read and what is encrypted land in the one
    buffer. *)
Definition OnionizeData_layer (key : list byte) (unencryptedLayer : Onion)
    (r : nat) : M (list byte) :=
  let jsonData := json_Marshal_Onion unencryptedLayer in
  let '(cipherkey, err) := aes_NewCipher key in
  run (if err is Some _ then emit (EvStderr "Error from creating cipher")
       else ret tt);
  let ciphertext := make_bytes (BlockSize + length jsonData) in
  let read := rand_Reader r in
  let iv := copy_bytes (take BlockSize ciphertext) read in
  run (if bool_decide (length read < BlockSize)
       then emit (EvStderr "Error in reading iv") else ret tt);
  do body <- cfb_XORKeyStream false cipherkey iv jsonData;
  ret (iv ++ copy_bytes (drop BlockSize ciphertext) body).

(** The loop of [OnionizeData]: [k] turns are left, the next one is for
    [hopNum = k - 1]; [n] is [len(op.ORInfoByHopNum)].  A hop number with no
    entry in the map reads as a nil [*orInfo]. *)
Fixpoint OnionizeData_loop (tbl : gmap nat orInfo) (n k r : nat)
    (encryptedLayer : list byte) : M (list byte) :=
  match k with
  | 0 => ret encryptedLayer
  | S hopNum =>
    do unencryptedLayer <-
      (if bool_decide (hopNum = n - 1)
       then ret (mkOnion encryptedLayer true "")
       else match tbl !! (hopNum + 1) with
            | None => panic nil_dereference
            | Some next => ret (mkOnion encryptedLayer false (address next))
            end);
    match tbl !! hopNum with
    | None => panic nil_dereference
    | Some hop =>
      do ciphertext <- OnionizeData_layer (sharedKey hop) unencryptedLayer r;
      OnionizeData_loop tbl n hopNum (S r) ciphertext
    end
  end.

(** [OnionizeData]; [r] counts the reads of [rand.Reader] so far. *)
Definition OnionizeData (op : OnionProxy) (coreData : list byte) (r : nat)
    : M (list byte) :=
  let n := size (ORInfoByHopNum op) in
  OnionizeData_loop (ORInfoByHopNum op) n n r coreData.

(** [SendChatMessageOnion] *)
Definition SendChatMessageOnion (op : OnionProxy) (onionToSend : list byte)
    (circId : N) : M (option error) :=
  let cell := mkCell circId onionToSend in
  match ORInfoByHopNum op !! 0 with
  | None => panic nil_dereference
  | Some guard =>
    run DialOR "Could not dial onion router" (address guard);
    run emit (EvCall (address guard) "ORServer.DecryptChatMessageCell"
                (ArgCell cell));
    let err := call_DecryptChatMessageCell (address guard) cell in
    run emit (EvClose (address guard));
    run HandleFatalError "Could not send onion to guard node" err;
    ret err
  end.

(** [SendMessage]: the acknowledgement and the error. *)
Definition SendMessage (op : OnionProxy) (message : string) (r : nat)
    : M (bool * option error) :=
  let chatMessage := mkChatMessage (ircServerAddr op) (username op) message in
  let jsonData := json_Marshal_ChatMessage chatMessage in
  do onion <- OnionizeData op jsonData r;
  do err <- SendChatMessageOnion op onion (circuitId op);
  ret (true, err).

(* ===================================================================== *)
(** ** The onion router, [onion_router.go] *)

Definition HeartbeatMultiplier : Z := 2.

Record OnionRouter : Type := mkOnionRouter {
  or_addr : string;
  or_dirServer : string;
  or_pubKey : rsa_PublicKey;
  or_privKey : list byte
}.

(** [sendHeartBeat]; [tick] numbers the calls to the directory. *)
Definition sendHeartBeat (or : OnionRouter) (tick : nat) : M unit :=
  run emit (EvCall (or_dirServer or) "DServer.KeepNodeOnline"
              (ArgString (or_addr or)));
  HandleFatalError "Could not send heartbeat to directory server"
    (call_KeepNodeOnline tick (or_addr or)).

(** [time.Duration(1000) / HeartbeatMultiplier * time.Millisecond], in
    nanoseconds. *)
Definition heartbeat_sleep : Z := (1000 / HeartbeatMultiplier * 1000000)%Z.

(** [startSendingHeartbeatsToServer], the first [turns] turns of its loop
    from call number [tick] on. *)
Fixpoint startSendingHeartbeatsToServer (or : OnionRouter) (turns tick : nat)
    : M unit :=
  match turns with
  | 0 => ret tt
  | S turns' =>
    run sendHeartBeat or tick;
    run emit (EvSleep heartbeat_sleep);
    startSendingHeartbeatsToServer or turns' (S tick)
  end.

(** [DeliverChatMessage]: the error of [rpc.Dial] is overwritten by that of
    [Call], and [Call] on the nil client of a failed dial panics. *)
Definition DeliverChatMessage (chatMessageByteArray : list byte)
    : M (option error) :=
  let chatMessage := json_Unmarshal_ChatMessage chatMessageByteArray in
  let ircAddr := IRCServerAddr chatMessage in
  run emit (EvDial ircAddr);
  match rpc_Dial ircAddr with
  | Some _ => panic nil_dereference
  | None =>
    let text := Username chatMessage +:+ ": " +:+ Message chatMessage in
    run emit (EvCall ircAddr "CServer.PublishMessage" (ArgString text));
    let err := call_PublishMessage ircAddr text in
    run emit (EvClose ircAddr);
    run HandleFatalError "Could not dial IRC" err;
    ret None
  end.

(** [RelayChatMessageOnion] *)
Definition RelayChatMessageOnion (nextORAddress : string)
    (nextOnion : list byte) (circuitId : N) : M (option error) :=
  let cell := mkCell circuitId nextOnion in
  run DialOR "Could not dial OR" nextORAddress;
  run emit (EvCall nextORAddress "ORServer.DecryptChatMessageCell"
              (ArgCell cell));
  let err := call_DecryptChatMessageCell nextORAddress cell in
  run emit (EvClose nextORAddress);
  ret err.

(** Lines 205-216 of [DecryptChatMessageCell], the same as lines 234-245 of
    [DecryptPollingCell]: the cipher is made from [key], the cell data is cut
    at the block size, decrypted in place and unmarshalled into a fresh
    [shared.Onion].  The error of [json.Unmarshal] is returned here and
    dropped by both callers.  The data of a decoded cell has its length as
    capacity, so both cuts are out of range below one block. *)
Definition decrypt_one_layer (key : list byte) (data : list byte)
    : M (Onion * option error) :=
  let '(cipherkey, err) := aes_NewCipher key in
  run (if err is Some _ then emit (EvStderr "Error from cipher creation")
       else ret tt);
  if bool_decide (length data < BlockSize) then panic slice_out_of_range
  else
    let iv := take BlockSize data in
    let jsonData := drop BlockSize data in
    do jsonData' <- cfb_XORKeyStream true cipherkey iv jsonData;
    ret (json_Unmarshal_Onion jsonData').

(** [sharedKeysByCircuitId[id]]: nil for an id with no entry. *)
Definition lookup_key (sharedKeysByCircuitId : gmap N (list byte)) (id : N)
    : list byte :=
  default [] (sharedKeysByCircuitId !! id).

(** [DecryptChatMessageCell]: the acknowledgement and the error. *)
Definition DecryptChatMessageCell (sharedKeysByCircuitId : gmap N (list byte))
    (cell : Cell) : M (bool * option error) :=
  let key := lookup_key sharedKeysByCircuitId (CircuitId cell) in
  do decoded <- decrypt_one_layer key (CellData cell);
  let currOnion := fst decoded in
  let nextOnion := Data currOnion in
  run (if IsExitNode currOnion
       then DeliverChatMessage (Data currOnion)
       else RelayChatMessageOnion (NextAddress currOnion) nextOnion
              (CircuitId cell));
  ret (true, None).

(** [DeliverPollingMessage] *)
Definition DeliverPollingMessage (pollingMessageByteArray : list byte)
    : M (list string * option error) :=
  let pollingMessage := json_Unmarshal_PollingMessage pollingMessageByteArray in
  let ircAddr := PollIRCServerAddr pollingMessage in
  run emit (EvDial ircAddr);
  match rpc_Dial ircAddr with
  | Some _ => panic nil_dereference
  | None =>
    run emit (EvCall ircAddr "CServer.GetNewMessages"
                (ArgInt (LastMessageId pollingMessage)));
    let '(ack, err) := call_GetNewMessages ircAddr (LastMessageId pollingMessage) in
    run emit (EvClose ircAddr);
    run HandleFatalError "Could not dial IRC" err;
    ret (ack, None)
  end.

(** [RelayPollingOnion] *)
Definition RelayPollingOnion (nextORAddress : string) (nextOnion : list byte)
    (circuitId : N) : M (list string * option error) :=
  let cell := mkCell circuitId nextOnion in
  run DialOR "Could not dial OR" nextORAddress;
  run emit (EvCall nextORAddress "ORServer.DecryptPollingCell" (ArgCell cell));
  let '(ack, err) := call_DecryptPollingCell nextORAddress cell in
  run emit (EvClose nextORAddress);
  ret (ack, err).

(** [DecryptPollingCell]: the messages and the error. *)
Definition DecryptPollingCell (sharedKeysByCircuitId : gmap N (list byte))
    (cell : Cell) : M (list string * option error) :=
  let key := lookup_key sharedKeysByCircuitId (CircuitId cell) in
  do decoded <- decrypt_one_layer key (CellData cell);
  let currOnion := fst decoded in
  let nextOnion := Data currOnion in
  do answer <-
    (if IsExitNode currOnion
     then DeliverPollingMessage (Data currOnion)
     else RelayPollingOnion (NextAddress currOnion) nextOnion
            (CircuitId cell));
  ret (fst answer, None).

(** [SendCircuitInfo]: the new key table, the acknowledgement and the error. *)
Definition SendCircuitInfo (or : OnionRouter)
    (sharedKeysByCircuitId : gmap N (list byte)) (circuitInfo : CircuitInfo)
    : M (gmap N (list byte) * bool * option error) :=
  let sharedKey := RSADecrypt (or_privKey or) (EncryptedSharedKey circuitInfo) in
  ret (<[CICircuitId circuitInfo := sharedKey]> sharedKeysByCircuitId, true, None).

(** [n] applications of [decrypt_one_layer] in hop order, each on the
    payload the one before decoded: the decoded layers and the payload left
    after the last. *)
Fixpoint unwrap_layers (keys : list (list byte)) (data : list byte)
    : M (list (Onion * option error) * list byte) :=
  match keys with
  | [] => ret ([], data)
  | key :: rest =>
    do decoded <- decrypt_one_layer key data;
    do inner <- unwrap_layers rest (Data (fst decoded));
    ret (decoded :: fst inner, snd inner)
  end.

(** What [io.ReadFull(rand.Reader, iv)] leaves in the 16 bytes of [iv] at the
    [r]-th read. *)
Definition read_iv (r : nat) : list byte :=
  copy_bytes (make_bytes BlockSize) (rand_Reader r).

End Programs.

Section Renewal.
Context {lib : Library} {net : Network}.

(** [120 * time.Second], in nanoseconds. *)
Definition renewal_wait : Z := (120 * 1000000000)%Z.

(** [GetNewCircuitEveryTwoMinutes], the first [turns] turns of its loop.
    [cids i] is what the [i]-th [math_rand.Uint32()] gives and [k] counts the
    keys generated so far; every build generates one key per relay listed.
    The Go function returns only with an error: an answer [(op, None)] here
    says that the loop is still running after [turns] turns. *)
Fixpoint GetNewCircuitEveryTwoMinutes (op : OnionProxy) (turns : nat)
    (cids : nat -> N) (i k : nat) : M (OnionProxy * option error) :=
  match turns with
  | 0 => ret (op, None)
  | S turns' =>
    run emit (EvSleep renewal_wait);
    do built <- GetCircuitFromDServer op (cids i) k;
    match snd built with
    | Some err => ret (fst built, Some err)
    | None =>
      GetNewCircuitEveryTwoMinutes (fst built) turns' cids (S i)
        (k + length (ORInfos (fst call_GetNodes)))
    end
  end.

(** [Connect]: the proxy, whether the renewal goroutine was started, and
    the error.  [*ack] is never written. *)
Definition Connect (op : OnionProxy) (username : string) (cid : N) (k : nat)
    : M (OnionProxy * bool * option error) :=
  let op1 := mkOnionProxy (addr op) username (circuitId op) (ircServerAddr op)
               (ORInfoByHopNum op) (dirServer op) in
  do built <- GetNewCircuit op1 cid k;
  match snd built with
  | Some err => ret (fst built, false, Some err)
  | None => ret (fst built, true, None)
  end.

End Renewal.

(** A key [aes.NewCipher] accepts. *)
Definition aes_key_ok (key : list byte) : Prop :=
  length key = 16 \/ length key = 24 \/ length key = 32.

(** The hop table of a circuit built over [hops]: hop [i] under key [i]. *)
Definition hop_table (hops : list orInfo) : gmap nat orInfo := map_seq 0 hops.

(* ===================================================================== *)
(** ** A small instance of the libraries and of the network

    Used to run the programs on concrete inputs.  The block function xors
    the block with the key, the codec writes a flag byte, the address with a
    marker before each byte and a closing zero, then the payload. *)

Definition demo_block (key block : list byte) : list byte := xorBytes block key.

Definition demo_byte (k : nat) : byte :=
  default Byte.x00 (Byte.of_nat (k mod 256)).

Definition demo_rand (k : nat) : list byte :=
  replicate BlockSize (demo_byte (17 * k + 5)).

Fixpoint demo_marshal_addr (a : list byte) : list byte :=
  match a with
  | [] => [Byte.x00]
  | c :: a' => Byte.x01 :: c :: demo_marshal_addr a'
  end.

Definition demo_Marshal_Onion (o : Onion) : list byte :=
  (if IsExitNode o then Byte.x01 else Byte.x00)
  :: demo_marshal_addr (String.list_byte_of_string (NextAddress o)) ++ Data o.

Fixpoint demo_unmarshal_addr (l : list byte) : option (list byte * list byte) :=
  match l with
  | m :: rest =>
    if Byte.eqb m Byte.x00 then Some ([], rest)
    else if Byte.eqb m Byte.x01 then
      match rest with
      | c :: rest' =>
        match demo_unmarshal_addr rest' with
        | Some (a, d) => Some (c :: a, d)
        | None => None
        end
      | [] => None
      end
    else None
  | [] => None
  end.

Definition demo_Unmarshal_Onion (l : list byte) : Onion * option error :=
  match l with
  | flag :: rest =>
    if Byte.eqb flag Byte.x00 || Byte.eqb flag Byte.x01 then
      match demo_unmarshal_addr rest with
      | Some (a, d) =>
        (mkOnion d (Byte.eqb flag Byte.x01) (String.string_of_list_byte a), None)
      | None => (zero_Onion, Some "unexpected end of JSON input")
      end
    else (zero_Onion, Some "invalid character looking for beginning of value")
  | [] => (zero_Onion, Some "unexpected end of JSON input")
  end.

Fixpoint split_bar (s : string) : string * string :=
  match s with
  | EmptyString => (EmptyString, EmptyString)
  | String c s' =>
    if Ascii.eqb c (Ascii.ascii_of_nat 124) then (EmptyString, s')
    else (String c (fst (split_bar s')), snd (split_bar s'))
  end.

Definition demo_Marshal_ChatMessage (c : ChatMessage) : list byte :=
  String.list_byte_of_string
    (IRCServerAddr c +:+ "|" +:+ Username c +:+ "|" +:+ Message c).

Definition demo_Unmarshal_ChatMessage (l : list byte) : ChatMessage :=
  let s := String.string_of_list_byte l in
  mkChatMessage (fst (split_bar s)) (fst (split_bar (snd (split_bar s))))
    (snd (split_bar (snd (split_bar s)))).

Definition demo_Unmarshal_PollingMessage (l : list byte) : PollingMessage :=
  let s := String.string_of_list_byte l in
  mkPollingMessage (fst (split_bar s))
    (Z.of_nat (String.length (snd (split_bar s)))).

Definition demo_lib : Library := {|
  aes_Encrypt := demo_block;
  rand_Reader := demo_rand;
  json_Marshal_Onion := demo_Marshal_Onion;
  json_Unmarshal_Onion := demo_Unmarshal_Onion;
  json_Marshal_ChatMessage := demo_Marshal_ChatMessage;
  json_Unmarshal_ChatMessage := demo_Unmarshal_ChatMessage;
  json_Unmarshal_PollingMessage := demo_Unmarshal_PollingMessage;
  PubKeyToString := String.string_of_list_byte;
  ecdsa_Verify := fun pk hash r s => bool_decide (r = Z.of_nat (length hash) /\ s = r);
  GenerateAESKey := fun k => replicate 16 (demo_byte (k + 65));
  RSAEncrypt := fun pk key => rev key;
  RSADecrypt := fun priv ct => rev ct
|}.

(** A network where every dial and every call succeeds... *)
Definition demo_nodes : OnionRouterInfos := {|
  SignerPubKey := Some (String.list_byte_of_string directoryServerPubKey);
  Hash := [Byte.x01; Byte.x02; Byte.x03];
  SigR := 3;
  SigS := 3;
  ORInfos := [ mkOnionRouterInfo "10.0.0.1:8000" [Byte.x0a];
               mkOnionRouterInfo "10.0.0.2:8000" [Byte.x0b];
               mkOnionRouterInfo "10.0.0.3:8000" [Byte.x0c] ]
|}.

Definition quiet_net (nodes : OnionRouterInfos) : Network := {|
  rpc_Dial := fun _ => None;
  call_GetNodes := (nodes, None);
  call_KeepNodeOnline := fun _ _ => None;
  call_SendCircuitInfo := fun _ _ => None;
  call_DecryptChatMessageCell := fun _ _ => None;
  call_DecryptPollingCell := fun _ _ => ([], None);
  call_PublishMessage := fun _ _ => None;
  call_GetNewMessages := fun _ _ => ([], None)
|}.

(** ... and one where the calls to the relay at [bad] fail, those to the
    directory from call [down] on fail, and the address [""] cannot be
    dialled. *)
Definition faulty_net (nodes : OnionRouterInfos) (bad : string) (down : nat)
    : Network := {|
  rpc_Dial := fun a => if String.eqb a "" then Some "dial tcp: missing address"
                       else None;
  call_GetNodes := (nodes, None);
  call_KeepNodeOnline := fun tick _ =>
    if bool_decide (down <= tick) then Some "connection is shut down" else None;
  call_SendCircuitInfo := fun a _ =>
    if String.eqb a bad then Some "connection is shut down" else None;
  call_DecryptChatMessageCell := fun a _ =>
    if String.eqb a bad then Some "connection is shut down" else None;
  call_DecryptPollingCell := fun a _ =>
    if String.eqb a bad then ([], Some "connection is shut down") else ([], None);
  call_PublishMessage := fun _ _ => None;
  call_GetNewMessages := fun _ _ => ([], None)
|}.

Definition demo_hops : list orInfo :=
  [ mkOrInfo "10.0.0.1:8000" [Byte.x0a] (replicate 16 Byte.x41);
    mkOrInfo "10.0.0.2:8000" [Byte.x0b] (replicate 16 Byte.x42);
    mkOrInfo "10.0.0.3:8000" [Byte.x0c] (replicate 16 Byte.x43) ].

Definition demo_proxy (tbl : gmap nat orInfo) : OnionProxy :=
  mkOnionProxy "127.0.0.1:9000" "alice" 7 "127.0.0.1:7000" tbl "localhost:12345".

Definition demo_router : OnionRouter :=
  mkOnionRouter "10.0.0.1:8000" "localhost:12345" [Byte.x0a] [Byte.x1a].

(* ===================================================================== *)
(** ** Inputs and descriptions used in the statements *)

(** The hops [GetCircuitFromDServer] records for the relays [infos], the
    first of them at hop number [s], when [k] keys were generated before. *)
Definition built_hops {lib : Library} (k s : nat)
    (infos : list OnionRouterInfo) : list orInfo :=
  imap (fun i info => mkOrInfo (Address info) (PubKey info)
                        (GenerateAESKey (k + (s + i)))) infos.

(** What the layer decoded at hop [i] of [hops] must say. *)
Definition layer_says (hops : list orInfo) (i : nat)
    (d : Onion * option error) : Prop :=
  snd d = None /\
  (IsExitNode (fst d) = true <-> i = length hops - 1) /\
  (forall h, hops !! S i = Some h -> NextAddress (fst d) = address h).

Definition hello : list byte := String.list_byte_of_string "hello".

Definition demo_layer : Onion := mkOnion hello true "".

(** The onion of ["hello"] over the three demo hops, and the key tables of
    a guard that knows circuit 7, under the right key and under another. *)
Definition demo_onion : list byte :=
  match result (OnionizeData (lib := demo_lib)
                  (demo_proxy (hop_table demo_hops)) hello 0) with
  | Ret onion => onion
  | _ => []
  end.

Definition guard_keys : gmap N (list byte) := {[ 7%N := replicate 16 Byte.x41 ]}.
Definition other_keys : gmap N (list byte) := {[ 7%N := replicate 16 Byte.xff ]}.

(** The error a run returned, if it returned one. *)
Definition returned_error {A} (m : M (A * option error)) : option error :=
  match result m with
  | Ret (_, err) => err
  | _ => None
  end.

(** A node set signed well by another key, and one under the pinned key
    with a signature that does not verify. *)
Definition nodes_other_signer : OnionRouterInfos :=
  mkOnionRouterInfos (Some (String.list_byte_of_string "04ff"))
    (Hash demo_nodes) 3 3 (ORInfos demo_nodes).

Definition nodes_bad_signature : OnionRouterInfos :=
  mkOnionRouterInfos (SignerPubKey demo_nodes) (Hash demo_nodes) 4 3
    (ORInfos demo_nodes).

(** The trace of [n] heartbeats that went through, each followed by the
    sleep. *)
Fixpoint heartbeat_trace (or : OnionRouter) (n : nat) : list event :=
  match n with
  | 0 => []
  | S n' =>
    EvCall (or_dirServer or) "DServer.KeepNodeOnline" (ArgString (or_addr or))
    :: EvSleep heartbeat_sleep :: heartbeat_trace or n'
  end.

(** The exit layer of a chat message, as [SendMessage] and the first turn
    of [OnionizeData] make it. *)
Definition exit_layer {lib : Library} (chat : ChatMessage) : Onion :=
  mkOnion (json_Marshal_ChatMessage chat) true "".

Definition demo_chat : ChatMessage :=
  mkChatMessage "127.0.0.1:7000" "alice" "hello".

Definition lost_chat : ChatMessage := mkChatMessage "" "alice" "hello".

Definition two_nodes : OnionRouterInfos :=
  mkOnionRouterInfos (SignerPubKey demo_nodes) (Hash demo_nodes) 3 3
    [ mkOnionRouterInfo "10.0.0.8:8000" [Byte.x0d];
      mkOnionRouterInfo "10.0.0.9:8000" [Byte.x0e] ].

Definition demo_inner : list byte :=
  match result (decrypt_one_layer (lib := demo_lib) (replicate 16 Byte.x41)
                  demo_onion) with
  | Ret (o, _) => Data o
  | _ => []
  end.

Definition demo_poll_payload : list byte :=
  String.list_byte_of_string "127.0.0.1:7000|abc".

Definition demo_poll_cell : list byte :=
  match result (OnionizeData_layer (lib := demo_lib) (replicate 16 Byte.x43)
                  (mkOnion demo_poll_payload true "") 0) with
  | Ret ct => ct
  | _ => []
  end.

(* ===================================================================== *)
(** ** Bytes and buffers *)

Lemma byte_xor_cancel (a b : byte) : byte_xor (byte_xor a b) b = a.
Proof.
  unfold byte_xor. rewrite Byte.to_bits_of_bits.
  rewrite <- (Byte.of_bits_to_bits a) at 2. f_equal.
  destruct (Byte.to_bits a) as (a0 & a1 & a2 & a3 & a4 & a5 & a6 & a7).
  destruct (Byte.to_bits b) as (b0 & b1 & b2 & b3 & b4 & b5 & b6 & b7).
  cbn. rewrite !xorb_assoc, !xorb_nilpotent, !xorb_false_r. reflexivity.
Qed.

Lemma length_xorBytes (src out : list byte) :
  length (xorBytes src out) = length src `min` length out.
Proof.
  revert out. induction src as [|s src IH]; intros [|o out]; cbn; auto.
Qed.

Lemma xorBytes_cancel (src out : list byte) :
  length src <= length out -> xorBytes (xorBytes src out) out = src.
Proof.
  revert out. induction src as [|s src IH]; intros [|o out]; cbn; intros Hle;
    try reflexivity; try lia.
  rewrite byte_xor_cancel, IH by lia. reflexivity.
Qed.

Lemma xorBytes_app_l (a b out : list byte) :
  length out <= length a -> xorBytes (a ++ b) out = xorBytes a out.
Proof.
  revert out. induction a as [|x a IH]; intros [|o out]; cbn; intros Hle;
    try reflexivity; try lia.
  - destruct b; reflexivity.
  - rewrite IH by lia. reflexivity.
Qed.

Lemma xorBytes_take (src out : list byte) :
  xorBytes src out = xorBytes (take (length out) src) out.
Proof.
  revert out. induction src as [|s src IH]; intros [|o out]; cbn; auto.
  rewrite <- IH. reflexivity.
Qed.

Lemma length_copy_bytes (dst src : list byte) :
  length (copy_bytes dst src) = length dst.
Proof.
  unfold copy_bytes. rewrite length_app, length_take, length_drop. lia.
Qed.

Lemma copy_bytes_full (dst src : list byte) :
  length dst <= length src -> copy_bytes dst src = take (length dst) src.
Proof.
  intros Hle. unfold copy_bytes. rewrite drop_ge by lia. apply app_nil_r.
Qed.

Lemma length_make_bytes (n : nat) : length (make_bytes n) = n.
Proof. apply length_replicate. Qed.

(* ===================================================================== *)
(** ** The monad *)

Lemma result_bind {A B} (m : M A) (f : A -> M B) :
  result (bind m f) =
  match result m with
  | Ret a => result (f a)
  | Panic msg => Panic msg
  | Exit msg => Exit msg
  end.
Proof. unfold bind. destruct (result m); reflexivity. Qed.

Lemma trace_bind {A B} (m : M A) (f : A -> M B) :
  trace (bind m f) =
  match result m with
  | Ret a => trace m ++ trace (f a)
  | _ => trace m
  end.
Proof. unfold bind. destruct (result m); reflexivity. Qed.

Lemma aes_NewCipher_ok (key : list byte) :
  aes_key_ok key -> aes_NewCipher key = (Some key, None).
Proof.
  intros Hk. unfold aes_NewCipher. rewrite bool_decide_eq_true_2; auto.
Qed.

Lemma aes_NewCipher_bad (key : list byte) :
  ~ aes_key_ok key ->
  aes_NewCipher key = (None, Some "crypto/aes: invalid key size").
Proof.
  intros Hk. unfold aes_NewCipher. rewrite bool_decide_eq_false_2; auto.
Qed.

(* ===================================================================== *)
(** ** CFB decryption undoes CFB encryption *)

Section CFB.
Context {lib : Library}.

Lemma length_key_stream (key next : list byte) :
  length (copy_bytes (make_bytes BlockSize) (aes_Encrypt key next)) = BlockSize.
Proof. rewrite length_copy_bytes. apply length_make_bytes. Qed.

Lemma cfb_stream_nil (decrypt : bool) (key : list byte) (fuel : nat)
    (next : list byte) :
  cfb_stream decrypt key fuel next [] = [].
Proof. destruct fuel; reflexivity. Qed.

Lemma length_cfb_stream (decrypt : bool) (key : list byte) (fuel : nat) :
  forall next src : list byte,
    length src <= fuel ->
    length (cfb_stream decrypt key fuel next src) = length src.
Proof.
  induction fuel as [|fuel IH]; intros next src Hle.
  - destruct src; cbn in *; [reflexivity | lia].
  - destruct src as [|s src]; [reflexivity|].
    cbn [cfb_stream].
    set (out := copy_bytes (make_bytes BlockSize) (aes_Encrypt key next)).
    assert (Hout : length out = BlockSize) by apply length_key_stream.
    set (dst := xorBytes (s :: src) out).
    assert (Hdst : length dst = length (s :: src) `min` BlockSize)
      by (unfold dst; rewrite length_xorBytes, Hout; reflexivity).
    rewrite length_app, IH.
    + rewrite length_drop. unfold BlockSize in *. lia.
    + rewrite length_drop. cbn [length] in *. unfold BlockSize in *. lia.
Qed.

Lemma cfb_stream_step (decrypt : bool) (key : list byte) (fuel : nat)
    (next src : list byte) :
  src <> [] ->
  cfb_stream decrypt key (S fuel) next src =
  let out := copy_bytes (make_bytes BlockSize) (aes_Encrypt key next) in
  let next1 := if decrypt then copy_bytes next src else next in
  let dst := xorBytes src out in
  let next2 := if decrypt then next1 else copy_bytes next1 dst in
  dst ++ cfb_stream decrypt key fuel next2 (drop (length dst) src).
Proof. destruct src; [congruence | reflexivity]. Qed.

Lemma cfb_roundtrip (key : list byte) (f1 : nat) :
  forall (f2 : nat) (next src : list byte),
    length next = BlockSize ->
    length src <= f1 -> length src <= f2 ->
    cfb_stream true key f2 next (cfb_stream false key f1 next src) = src.
Proof.
  induction f1 as [|f1 IH]; intros f2 next src Hnext H1 H2.
  - destruct src; cbn in *; [apply cfb_stream_nil | lia].
  - destruct (decide (src = [])) as [->|Hne]; [apply cfb_stream_nil|].
    assert (Hlen : 0 < length src) by (destruct src; cbn; [congruence | lia]).
    destruct f2 as [|f2]; [lia|].
    rewrite (cfb_stream_step false) by assumption. cbv zeta.
    set (out := copy_bytes (make_bytes BlockSize) (aes_Encrypt key next)).
    assert (Hout : length out = BlockSize) by apply length_key_stream.
    set (dst := xorBytes src out).
    assert (Hdst : length dst = length src `min` BlockSize)
      by (unfold dst; rewrite length_xorBytes, Hout; reflexivity).
    set (rest := cfb_stream false key f1 (copy_bytes next dst)
                   (drop (length dst) src)).
    assert (Hct : dst ++ rest <> []).
    { intros E. apply (f_equal length) in E. rewrite length_app in E.
      cbn in E. unfold BlockSize in *. lia. }
    rewrite (cfb_stream_step true) by assumption. cbv zeta. fold out.
    destruct (decide (BlockSize <= length src)) as [Hfull|Hpart].
    + (* a whole block *)
      assert (Hd16 : length dst = BlockSize) by lia.
      replace (xorBytes (dst ++ rest) out) with (take BlockSize src).
      2:{ rewrite xorBytes_app_l by lia. unfold dst.
          rewrite (xorBytes_take src out), Hout.
          rewrite xorBytes_cancel; [reflexivity|].
          rewrite length_take. lia. }
      rewrite length_take.
      replace (BlockSize `min` length src) with (length dst) by lia.
      rewrite drop_app_length.
      replace (copy_bytes next (dst ++ rest)) with (copy_bytes next dst).
      2:{ rewrite !copy_bytes_full by (rewrite ?length_app; lia).
          rewrite take_app_le by lia. reflexivity. }
      unfold rest. rewrite IH.
      * rewrite Hd16. apply take_drop.
      * rewrite length_copy_bytes. exact Hnext.
      * rewrite length_drop. unfold BlockSize in *. lia.
      * rewrite length_drop. unfold BlockSize in *. lia.
    + (* the last, short block *)
      assert (Hrest : rest = []).
      { unfold rest. rewrite drop_ge by lia. apply cfb_stream_nil. }
      rewrite Hrest, app_nil_r.
      replace (xorBytes dst out) with src
        by (unfold dst; rewrite xorBytes_cancel by lia; reflexivity).
      rewrite drop_ge by lia.
      rewrite cfb_stream_nil. apply app_nil_r.
Qed.

End CFB.

(* ===================================================================== *)
(** ** One layer: what [OnionizeData] writes and what a relay reads back *)

Section Layer.
Context {lib : Library}.

Lemma OnionizeData_layer_ok (key : list byte) (layer : Onion) (r : nat) :
  aes_key_ok key ->
  OnionizeData_layer key layer r =
  mkM (if bool_decide (length (rand_Reader r) < BlockSize)
       then [EvStderr "Error in reading iv"] else [])
      (Ret (read_iv r ++
            cfb_stream false key (length (json_Marshal_Onion layer))
              (read_iv r) (json_Marshal_Onion layer))).
Proof.
  intros Hk. unfold OnionizeData_layer. rewrite (aes_NewCipher_ok key Hk).
  set (json := json_Marshal_Onion layer).
  assert (Hiv : copy_bytes (take BlockSize (make_bytes (BlockSize + length json)))
                  (rand_Reader r) = read_iv r).
  { unfold read_iv, make_bytes. rewrite take_replicate.
    replace (BlockSize `min` (BlockSize + length json)) with BlockSize by lia.
    reflexivity. }
  rewrite Hiv.
  assert (Hbody : copy_bytes (drop BlockSize (make_bytes (BlockSize + length json)))
                    (cfb_stream false key (length json) (read_iv r) json)
                  = cfb_stream false key (length json) (read_iv r) json).
  { unfold copy_bytes, make_bytes.
    rewrite drop_replicate, length_replicate, length_cfb_stream by lia.
    replace (BlockSize + length json - BlockSize) with (length json) by lia.
    rewrite take_ge by (rewrite length_cfb_stream; lia).
    rewrite drop_replicate. replace (length json - length json) with 0 by lia.
    apply app_nil_r. }
  unfold cfb_XORKeyStream.
  destruct (bool_decide (length (rand_Reader r) < BlockSize));
    unfold bind, ret, emit; cbn [result trace app]; rewrite Hbody; reflexivity.
Qed.

Lemma length_read_iv (r : nat) : length (read_iv r) = BlockSize.
Proof. unfold read_iv. rewrite length_copy_bytes. apply length_make_bytes. Qed.

Lemma read_iv_full (r : nat) :
  BlockSize <= length (rand_Reader r) ->
  read_iv r = take BlockSize (rand_Reader r).
Proof.
  intros Hle. unfold read_iv.
  rewrite copy_bytes_full by (rewrite length_make_bytes; lia).
  rewrite length_make_bytes. reflexivity.
Qed.

Lemma decrypt_one_layer_ok (key iv body : list byte) :
  aes_key_ok key -> length iv = BlockSize ->
  decrypt_one_layer key (iv ++ body) =
  mkM [] (Ret (json_Unmarshal_Onion
                 (cfb_stream true key (length body) iv body))).
Proof.
  intros Hk Hiv. unfold decrypt_one_layer. rewrite (aes_NewCipher_ok key Hk).
  rewrite bool_decide_eq_false_2 by (rewrite length_app; lia).
  rewrite take_app_length', drop_app_length' by done.
  reflexivity.
Qed.

Lemma decrypt_OnionizeData_layer (key : list byte) (layer : Onion) (r : nat)
    (ct : list byte) :
  aes_key_ok key ->
  result (OnionizeData_layer key layer r) = Ret ct ->
  result (decrypt_one_layer key ct) =
  Ret (json_Unmarshal_Onion (json_Marshal_Onion layer)).
Proof.
  intros Hk. rewrite (OnionizeData_layer_ok key layer r Hk). cbn.
  intros [= <-].
  rewrite (decrypt_one_layer_ok key _ _ Hk (length_read_iv r)).
  cbn [result].
  rewrite length_cfb_stream by lia.
  rewrite cfb_roundtrip; [reflexivity | apply length_read_iv | lia | lia].
Qed.

End Layer.

(* ===================================================================== *)
(** ** The whole onion *)

Lemma size_map_seq {A} (start : nat) (xs : list A) :
  size (map_seq start xs : gmap nat A) = length xs.
Proof.
  revert start. induction xs as [|x xs IH]; intros start; cbn.
  - apply map_size_empty.
  - rewrite map_size_insert_None by apply map_seq_cons_disjoint.
    rewrite IH. reflexivity.
Qed.

Lemma size_hop_table (hops : list orInfo) : size (hop_table hops) = length hops.
Proof. apply size_map_seq. Qed.

Lemma lookup_hop_table (hops : list orInfo) (i : nat) :
  hop_table hops !! i = hops !! i.
Proof. apply lookup_map_seq_0. Qed.

Section Unwrap.
Context {lib : Library}.

Lemma unwrap_layers_app (ks1 ks2 : list (list byte)) :
  forall (data : list byte) (l1 : list (Onion * option error)) (d1 : list byte)
         (l2 : list (Onion * option error)) (d2 : list byte),
    result (unwrap_layers ks1 data) = Ret (l1, d1) ->
    result (unwrap_layers ks2 d1) = Ret (l2, d2) ->
    result (unwrap_layers (ks1 ++ ks2) data) = Ret (l1 ++ l2, d2).
Proof.
  induction ks1 as [|k ks1 IH]; intros data l1 d1 l2 d2 H1 H2.
  - cbn in H1. injection H1 as <- <-. exact H2.
  - cbn [unwrap_layers app] in *. rewrite result_bind in *.
    destruct (result (decrypt_one_layer k data)) as [dec| |]; try discriminate.
    rewrite result_bind in *.
    destruct (result (unwrap_layers ks1 (Data (fst dec)))) as [[l d]| |] eqn:E;
      try discriminate.
    cbn in H1. injection H1 as <- <-.
    rewrite (IH _ _ _ _ _ E H2). reflexivity.
Qed.

Lemma unwrap_layers_last (ks : list (list byte)) :
  forall (data : list byte) (layers : list (Onion * option error))
         (rest : list byte),
    ks <> [] ->
    result (unwrap_layers ks data) = Ret (layers, rest) ->
    exists d, last layers = Some d /\ Data (fst d) = rest.
Proof.
  induction ks as [|k ks IH]; intros data layers rest Hne H; [congruence|].
  cbn [unwrap_layers] in H. rewrite result_bind in H.
  destruct (result (decrypt_one_layer k data)) as [dec| |]; try discriminate.
  rewrite result_bind in H.
  destruct (result (unwrap_layers ks (Data (fst dec)))) as [[l d]| |] eqn:E;
    try discriminate.
  cbn in H. injection H as <- <-.
  destruct ks as [|k' ks].
  - cbn in E. injection E as <- <-. exists dec. split; reflexivity.
  - destruct (IH _ _ _ ltac:(congruence) E) as (d0 & Hlast & Hd).
    exists d0. split; [|exact Hd].
    destruct l as [|x l]; [discriminate Hlast|]. exact Hlast.
Qed.

Lemma length_unwrap_layers (ks : list (list byte)) :
  forall (data : list byte) (layers : list (Onion * option error))
         (rest : list byte),
    result (unwrap_layers ks data) = Ret (layers, rest) ->
    length layers = length ks.
Proof.
  induction ks as [|k ks IH]; intros data layers rest H.
  - cbn in H. injection H as <- <-. reflexivity.
  - cbn [unwrap_layers] in H. rewrite result_bind in H.
    destruct (result (decrypt_one_layer k data)) as [dec| |]; try discriminate.
    rewrite result_bind in H.
    destruct (result (unwrap_layers ks (Data (fst dec)))) as [[l d]| |] eqn:E;
      try discriminate.
    cbn in H. injection H as <- <-. cbn. rewrite (IH _ _ _ E). reflexivity.
Qed.

Section Circuit.
Variable hops : list orInfo.
Hypothesis keys_ok : Forall (fun h => aes_key_ok (sharedKey h)) hops.
Hypothesis json_round_trip :
  forall (d : list byte) (e : bool) (a : string),
    a = "" \/ a ∈ address <$> hops ->
    json_Unmarshal_Onion (json_Marshal_Onion (mkOnion d e a))
    = (mkOnion d e a, None).

Lemma OnionizeData_loop_unwrap (k : nat) :
  forall (r : nat) (data : list byte),
    k <= length hops ->
    exists (onion : list byte) (layers : list (Onion * option error)),
      result (OnionizeData_loop (hop_table hops) (length hops) k r data)
        = Ret onion /\
      result (unwrap_layers (take k (sharedKey <$> hops)) onion)
        = Ret (layers, data) /\
      (forall i d, layers !! i = Some d -> layer_says hops i d).
Proof.
  induction k as [|hopNum IH]; intros r data Hk.
  - exists data, []. cbn. repeat split; try discriminate.
  - destruct (lookup_lt_is_Some_2 hops hopNum ltac:(lia)) as [hop Hhop].
    assert (Hkey : aes_key_ok (sharedKey hop)).
    { eapply (proj1 (Forall_lookup _ _) keys_ok); eauto. }
    (* the layer this turn builds *)
    assert (Hlayer : exists a,
      (if bool_decide (hopNum = length hops - 1)
       then ret (mkOnion data true "")
       else match hop_table hops !! (hopNum + 1) with
            | None => panic nil_dereference
            | Some next => ret (mkOnion data false (address next))
            end)
      = ret (mkOnion data (bool_decide (hopNum = length hops - 1)) a) /\
      (a = "" \/ a ∈ address <$> hops) /\
      (forall h, hops !! S hopNum = Some h -> a = address h)).
    { case_bool_decide as Hlast.
      - exists "". split; [reflexivity|]. split; [by left|].
        intros h Hh. apply lookup_lt_Some in Hh. lia.
      - destruct (lookup_lt_is_Some_2 hops (S hopNum) ltac:(lia)) as [nx Hnx].
        exists (address nx). rewrite lookup_hop_table.
        replace (hopNum + 1) with (S hopNum) by lia. rewrite Hnx.
        split; [reflexivity|]. split.
        + right. apply list_elem_of_fmap. exists nx. split; [reflexivity|].
          eapply list_elem_of_lookup_2; eauto.
        + intros h Hh. congruence. }
    destruct Hlayer as (a & Hbuild & Ha & Hnext).
    set (layer := mkOnion data (bool_decide (hopNum = length hops - 1)) a) in *.
    pose proof (OnionizeData_layer_ok (sharedKey hop) layer r Hkey) as Henc.
    set (ct := read_iv r ++ cfb_stream false (sharedKey hop)
                 (length (json_Marshal_Onion layer)) (read_iv r)
                 (json_Marshal_Onion layer)) in *.
    destruct (IH (S r) ct ltac:(lia)) as (onion & layers & Hloop & Hun & Hsays).
    exists onion, (layers ++ [(layer, None)]).
    split; [|split].
    + cbn [OnionizeData_loop]. rewrite Hbuild.
      rewrite result_bind. cbn [ret result].
      rewrite lookup_hop_table, Hhop.
      rewrite result_bind, Henc. cbn [result]. exact Hloop.
    + rewrite (take_S_r _ _ (sharedKey hop))
        by (rewrite list_lookup_fmap, Hhop; reflexivity).
      eapply unwrap_layers_app; [exact Hun|].
      cbn [unwrap_layers]. rewrite result_bind.
      rewrite (decrypt_OnionizeData_layer (sharedKey hop) layer r ct Hkey)
        by (rewrite Henc; reflexivity).
      unfold layer. rewrite !(json_round_trip _ _ _ Ha). reflexivity.
    + intros i d Hi.
      assert (Hlen : length layers = hopNum).
      { rewrite (length_unwrap_layers _ _ _ _ Hun), length_take, length_fmap.
        lia. }
      destruct (decide (i < hopNum)) as [Hlt|Hge].
      * rewrite lookup_app_l in Hi by lia. eauto.
      * rewrite lookup_app_r in Hi by lia.
        destruct (i - length layers) as [|j] eqn:Ej; [|destruct j; discriminate].
        injection Hi as <-. assert (i = hopNum) as -> by lia.
        split; [reflexivity|]. split; [|exact Hnext].
        cbn. apply bool_decide_eq_true.
Qed.

End Circuit.
End Unwrap.

(* ===================================================================== *)
(** ** The small codec round-trips *)

Lemma demo_unmarshal_marshal_addr (a d : list byte) :
  demo_unmarshal_addr (demo_marshal_addr a ++ d) = Some (a, d).
Proof.
  induction a as [|c a IH]; cbn; [reflexivity|]. rewrite IH. reflexivity.
Qed.

Lemma demo_codec_round_trip (o : Onion) :
  demo_Unmarshal_Onion (demo_Marshal_Onion o) = (o, None).
Proof.
  destruct o as [d e a]. unfold demo_Marshal_Onion, demo_Unmarshal_Onion.
  cbn [Data IsExitNode NextAddress].
  rewrite demo_unmarshal_marshal_addr, String.string_of_list_byte_of_string.
  destruct e; reflexivity.
Qed.

(* ===================================================================== *)
(** ** Layering and unlayering *)

(** C1: for every message and every complete circuit of n >= 1 hops whose
    keys AES accepts (and whose layers JSON carries unchanged), [OnionizeData]
    returns an onion from which n applications of [decrypt_one_layer] in hop
    order, each under its hop's key, decode n layers without error and leave
    the message; [IsExitNode] is set at the last layer and only there, and
    every earlier layer names the address of the next hop of the circuit. *)
Theorem onion_round_trip (lib : Library) (op : OnionProxy)
    (hops : list orInfo) (message : list byte) (r : nat) :
  hops <> [] ->
  ORInfoByHopNum op = hop_table hops ->
  Forall (fun h => aes_key_ok (sharedKey h)) hops ->
  (forall (d : list byte) (e : bool) (a : string),
     a = "" \/ a ∈ address <$> hops ->
     json_Unmarshal_Onion (json_Marshal_Onion (mkOnion d e a))
     = (mkOnion d e a, None)) ->
  exists (onion : list byte) (layers : list (Onion * option error)),
    result (OnionizeData op message r) = Ret onion /\
    result (unwrap_layers (sharedKey <$> hops) onion) = Ret (layers, message) /\
    length layers = length hops /\
    (exists d, last layers = Some d /\ Data (fst d) = message) /\
    (forall i d, layers !! i = Some d ->
       snd d = None /\
       (IsExitNode (fst d) = true <-> i = length hops - 1) /\
       (forall h, hops !! S i = Some h -> NextAddress (fst d) = address h)).
Proof.
  intros Hne Htbl Hkeys Hjson.
  destruct (OnionizeData_loop_unwrap hops Hkeys Hjson (length hops) r message
              ltac:(lia)) as (onion & layers & Hloop & Hun & Hsays).
  rewrite take_ge in Hun by (rewrite length_fmap; lia).
  exists onion, layers. split; [|split; [|split; [|split]]].
  - unfold OnionizeData. rewrite Htbl, size_hop_table. exact Hloop.
  - exact Hun.
  - rewrite (length_unwrap_layers _ _ _ _ Hun). apply length_fmap.
  - eapply unwrap_layers_last; [|exact Hun].
    destruct hops; [congruence | discriminate].
  - exact Hsays.
Qed.

Lemma onion_round_trip_witness :
  exists (onion : list byte) (layers : list (Onion * option error)),
    result (OnionizeData (lib := demo_lib) (demo_proxy (hop_table demo_hops))
              hello 0) = Ret onion /\
    result (unwrap_layers (lib := demo_lib) (sharedKey <$> demo_hops) onion)
      = Ret (layers, hello) /\
    length layers = length demo_hops /\
    (exists d, last layers = Some d /\ Data (fst d) = hello) /\
    (forall i d, layers !! i = Some d ->
       snd d = None /\
       (IsExitNode (fst d) = true <-> i = length demo_hops - 1) /\
       (forall h, demo_hops !! S i = Some h -> NextAddress (fst d) = address h)).
Proof.
  apply (onion_round_trip demo_lib (demo_proxy (hop_table demo_hops))
           demo_hops hello 0).
  - discriminate.
  - reflexivity.
  - repeat constructor.
  - intros d e a _. apply demo_codec_round_trip.
Defined.

(** C8: every layer [OnionizeData] encrypts under a key AES accepts comes
    out as the 16 bytes of the IV read from [rand.Reader] followed by exactly
    as many bytes as the layer's serialised plaintext: its length is the block
    size plus the plaintext length. *)
Theorem OnionizeData_layer_length (lib : Library) (key : list byte)
    (layer : Onion) (r : nat) :
  aes_key_ok key ->
  exists body : list byte,
    result (OnionizeData_layer key layer r) = Ret (read_iv r ++ body) /\
    length (read_iv r) = BlockSize /\
    length body = length (json_Marshal_Onion layer) /\
    length (read_iv r ++ body) = BlockSize + length (json_Marshal_Onion layer) /\
    (BlockSize <= length (rand_Reader r) ->
     read_iv r = take BlockSize (rand_Reader r)).
Proof.
  intros Hk.
  exists (cfb_stream false key (length (json_Marshal_Onion layer)) (read_iv r)
            (json_Marshal_Onion layer)).
  rewrite (OnionizeData_layer_ok key layer r Hk).
  rewrite length_app, length_read_iv, length_cfb_stream by lia.
  repeat split. apply read_iv_full.
Qed.

Lemma OnionizeData_layer_length_witness :
  aes_key_ok (replicate 16 Byte.x41) /\
  exists body : list byte,
    result (OnionizeData_layer (lib := demo_lib) (replicate 16 Byte.x41)
              demo_layer 0)
      = Ret (read_iv (lib := demo_lib) 0 ++ body) /\
    length (read_iv (lib := demo_lib) 0) = BlockSize /\
    length body = length (demo_Marshal_Onion demo_layer) /\
    length (read_iv (lib := demo_lib) 0 ++ body)
      = BlockSize + length (demo_Marshal_Onion demo_layer) /\
    (BlockSize <= length (demo_rand 0) ->
     read_iv (lib := demo_lib) 0 = take BlockSize (demo_rand 0)).
Proof.
  split; [left; reflexivity|].
  apply (OnionizeData_layer_length demo_lib (replicate 16 Byte.x41) demo_layer 0).
  left; reflexivity.
Defined.

(* ===================================================================== *)
(** ** The relay's cell handlers *)

Section Relay.
Context {lib : Library} {net : Network}.

Lemma lookup_key_absent (keys : gmap N (list byte)) (id : N) :
  keys !! id = None -> lookup_key keys id = [].
Proof. intros H. unfold lookup_key. rewrite H. reflexivity. Qed.

Lemma nil_key_refused : ~ aes_key_ok [].
Proof. unfold aes_key_ok. cbn. lia. Qed.

Lemma decrypt_one_layer_short (key data : list byte) :
  length data < BlockSize ->
  decrypt_one_layer key data =
  mkM (if bool_decide (aes_key_ok key) then []
       else [EvStderr "Error from cipher creation"])
      (Panic slice_out_of_range).
Proof.
  intros Hlen. unfold decrypt_one_layer, aes_NewCipher.
  fold (aes_key_ok key).
  destruct (bool_decide (aes_key_ok key)); cbn [bind ret emit result trace];
    rewrite bool_decide_eq_true_2 by assumption; reflexivity.
Qed.

Lemma decrypt_one_layer_no_cipher (key data : list byte) :
  ~ aes_key_ok key -> BlockSize <= length data ->
  decrypt_one_layer key data =
  mkM [EvStderr "Error from cipher creation"] (Panic nil_dereference).
Proof.
  intros Hk Hlen. unfold decrypt_one_layer.
  rewrite (aes_NewCipher_bad key Hk).
  cbn [bind ret emit result trace].
  rewrite bool_decide_eq_false_2 by lia. reflexivity.
Qed.

(** A cell of a circuit the relay has no key for makes the handler panic,
    whatever its length, before anything is dialled or called. *)
Lemma DecryptChatMessageCell_unknown_circuit (keys : gmap N (list byte))
    (cell : Cell) :
  keys !! CircuitId cell = None ->
  DecryptChatMessageCell keys cell =
  mkM [EvStderr "Error from cipher creation"]
      (Panic (if bool_decide (length (CellData cell) < BlockSize)
              then slice_out_of_range else nil_dereference)).
Proof.
  intros Hnone. unfold DecryptChatMessageCell.
  rewrite (lookup_key_absent _ _ Hnone).
  case_bool_decide as Hlen.
  - rewrite decrypt_one_layer_short by assumption.
    rewrite bool_decide_eq_false_2 by apply nil_key_refused. reflexivity.
  - rewrite decrypt_one_layer_no_cipher by (auto using nil_key_refused; lia).
    reflexivity.
Qed.

(** Whatever happens below it, [DecryptChatMessageCell] returns no error:
    when it returns at all, it returns [ack = true] and [nil]. *)
Lemma DecryptChatMessageCell_returns_nil (keys : gmap N (list byte))
    (cell : Cell) (ack : bool) (err : option error) :
  result (DecryptChatMessageCell keys cell) = Ret (ack, err) ->
  ack = true /\ err = None.
Proof.
  unfold DecryptChatMessageCell. rewrite result_bind.
  destruct (result (decrypt_one_layer _ _)) as [dec| |]; try discriminate.
  rewrite result_bind.
  destruct (result (if IsExitNode (fst dec) then _ else _)); try discriminate.
  cbn. intros [= <- <-]. split; reflexivity.
Qed.

End Relay.

(* ===================================================================== *)
(** ** The circuit builder *)

Section Builder.
Context {lib : Library}.

(** When every relay can be dialled the loop records one hop per relay, in
    order, over what the table held; what the relays answer plays no part. *)
Lemma GetCircuit_loop_builds (net : Network) (cid : N) (k : nat)
    (infos : list OnionRouterInfo) :
  forall (tbl : gmap nat orInfo) (s : nat),
    Forall (fun info => rpc_Dial (Address info) = None) infos ->
    result (GetCircuit_loop cid k tbl s infos)
    = Ret (map_seq s (built_hops k s infos) ∪ tbl).
Proof.
  induction infos as [|info infos IH]; intros tbl s Hdial.
  - cbn. rewrite (left_id_L ∅ (∪)). reflexivity.
  - apply Forall_cons in Hdial as [Hd Hrest].
    cbn [GetCircuit_loop]. rewrite result_bind.
    unfold GetCircuit_hop, DialOR. rewrite Hd. cbn [HandleFatalError].
    cbn [bind ret emit result trace].
    rewrite (IH _ _ Hrest).
    f_equal. unfold built_hops. cbn [imap map_seq].
    rewrite Nat.add_0_r.
    rewrite <- insert_union_l, <- insert_union_r
      by apply map_seq_cons_disjoint.
    f_equal. f_equal. f_equal. apply imap_ext. intros i x _. cbn.
    f_equal. f_equal. lia.
Qed.

(** From an empty table the build of a trusted node set ends with the hop
    table of the relays listed, under the new circuit id. *)
Lemma GetCircuitFromDServer_builds (net : Network) (op : OnionProxy) (cid : N)
    (k : nat) (nodes : OnionRouterInfos) (pk : ecdsa_PublicKey) :
  call_GetNodes = (nodes, None) ->
  SignerPubKey nodes = Some pk ->
  PubKeyToString pk = directoryServerPubKey ->
  ecdsa_Verify pk (Hash nodes) (SigR nodes) (SigS nodes) = true ->
  Forall (fun info => rpc_Dial (Address info) = None) (ORInfos nodes) ->
  ORInfoByHopNum op = ∅ ->
  result (GetCircuitFromDServer op cid k)
  = Ret (mkOnionProxy (addr op) (username op) cid (ircServerAddr op)
           (hop_table (built_hops k 0 (ORInfos nodes))) (dirServer op), None).
Proof.
  intros Hnodes Hpk Hstr Hsig Hdial Hempty. unfold GetCircuitFromDServer.
  rewrite Hnodes, Hpk, Hstr, String.eqb_refl, Hsig.
  cbn [HandleFatalError negb orb]. rewrite !result_bind.
  cbn [emit ret result ORInfoByHopNum].
  rewrite (GetCircuit_loop_builds net cid k _ _ 0 Hdial), Hempty.
  rewrite (right_id_L ∅ (∪)). reflexivity.
Qed.

(** The answers to [SendCircuitInfo] are never read: two networks that
    agree on the dials and on the directory build the same circuit. *)
Lemma GetCircuit_loop_ignores_answers (net1 net2 : Network) (cid : N) (k : nat)
    (infos : list OnionRouterInfo) :
  (forall a, rpc_Dial (Network := net1) a = rpc_Dial (Network := net2) a) ->
  forall (tbl : gmap nat orInfo) (s : nat),
    GetCircuit_loop (net := net1) cid k tbl s infos
    = GetCircuit_loop (net := net2) cid k tbl s infos.
Proof.
  intros Hdial. induction infos as [|info infos IH]; intros tbl s;
    [reflexivity|].
  cbn [GetCircuit_loop]. unfold GetCircuit_hop, DialOR. rewrite Hdial.
  unfold bind. destruct (result _); try reflexivity.
  rewrite IH. reflexivity.
Qed.

Lemma GetCircuitFromDServer_ignores_answers (net1 net2 : Network)
    (op : OnionProxy) (cid : N) (k : nat) :
  (forall a, rpc_Dial (Network := net1) a = rpc_Dial (Network := net2) a) ->
  call_GetNodes (Network := net1) = call_GetNodes (Network := net2) ->
  GetCircuitFromDServer (net := net1) op cid k
  = GetCircuitFromDServer (net := net2) op cid k.
Proof.
  intros Hdial Hnodes. unfold GetCircuitFromDServer. rewrite Hnodes.
  destruct (call_GetNodes (Network := net2)) as [ORSet err].
  destruct (SignerPubKey ORSet); [|reflexivity].
  destruct (_ || _); [reflexivity|].
  rewrite (GetCircuit_loop_ignores_answers net1 net2 cid k _ Hdial).
  reflexivity.
Qed.

End Builder.

(** C10: a cell whose data is shorter than one AES block makes both
    [DecryptChatMessageCell] and [DecryptPollingCell] panic on the slice
    bounds; neither returns, and neither has done more than report a refused
    key on standard error. *)
Theorem short_cell_panics (lib : Library) (net : Network)
    (keys : gmap N (list byte)) (cell : Cell) :
  length (CellData cell) < BlockSize ->
  exists t : list event,
    DecryptChatMessageCell keys cell = mkM t (Panic slice_out_of_range) /\
    DecryptPollingCell keys cell = mkM t (Panic slice_out_of_range) /\
    Forall (fun e => e = EvStderr "Error from cipher creation") t.
Proof.
  intros Hlen.
  exists (if bool_decide (aes_key_ok (lookup_key keys (CircuitId cell)))
          then [] else [EvStderr "Error from cipher creation"]).
  unfold DecryptChatMessageCell, DecryptPollingCell.
  rewrite decrypt_one_layer_short by assumption.
  repeat split. destruct (bool_decide _); repeat constructor.
Qed.

Lemma short_cell_panics_witness :
  length (CellData (mkCell 7 [Byte.x01; Byte.x02; Byte.x03])) < BlockSize /\
  exists t : list event,
    DecryptChatMessageCell (lib := demo_lib) (net := quiet_net demo_nodes)
      {[ 7%N := replicate 16 Byte.x41 ]} (mkCell 7 [Byte.x01; Byte.x02; Byte.x03])
      = mkM t (Panic slice_out_of_range) /\
    DecryptPollingCell (lib := demo_lib) (net := quiet_net demo_nodes)
      {[ 7%N := replicate 16 Byte.x41 ]} (mkCell 7 [Byte.x01; Byte.x02; Byte.x03])
      = mkM t (Panic slice_out_of_range) /\
    Forall (fun e => e = EvStderr "Error from cipher creation") t.
Proof.
  split; [cbn; unfold BlockSize; lia|].
  apply (short_cell_panics demo_lib (quiet_net demo_nodes)
           {[ 7%N := replicate 16 Byte.x41 ]}
           (mkCell 7 [Byte.x01; Byte.x02; Byte.x03])).
  cbn; unfold BlockSize; lia.
Defined.

(* ===================================================================== *)
(** ** Runs of the relay and of the circuit builder *)

(** C2: the guard holds a key for circuit 7 only and receives a cell of
    circuit 8.  [aes.NewCipher] refuses the nil key, the handler reports it
    and goes on to [cipher.NewCFBDecrypter] with a nil block, which panics:
    no error is returned and the relay does not go on. *)
Theorem unknown_circuit_panics :
  guard_keys !! 8%N = None /\
  DecryptChatMessageCell (lib := demo_lib) (net := quiet_net demo_nodes)
    guard_keys (mkCell 8 demo_onion)
  = mkM [EvStderr "Error from cipher creation"] (Panic nil_dereference).
Proof. split; vm_compute; reflexivity. Qed.

(** C4: the guard decrypts a cell of circuit 7 under a key that is not the
    one the proxy used.  [json.Unmarshal] fails and leaves the zero onion;
    the handler drops the error, relays an empty cell to the empty address
    and returns [ack = true] with no error; where the empty address cannot
    be dialled, the relay ends in [DialOR]. *)
Theorem wrong_key_is_relayed :
  result (decrypt_one_layer (lib := demo_lib) (replicate 16 Byte.xff) demo_onion)
  = Ret (zero_Onion, Some "invalid character looking for beginning of value") /\
  DecryptChatMessageCell (lib := demo_lib) (net := quiet_net demo_nodes)
    other_keys (mkCell 7 demo_onion)
  = mkM [EvDial "";
         EvCall "" "ORServer.DecryptChatMessageCell" (ArgCell (mkCell 7 []));
         EvClose ""]
        (Ret (true, None)) /\
  DecryptChatMessageCell (lib := demo_lib)
    (net := faulty_net demo_nodes "10.0.0.2:8000" 0)
    other_keys (mkCell 7 demo_onion)
  = mkM [EvDial ""] (Exit "Could not dial OR").
Proof. repeat split; vm_compute; reflexivity. Qed.

(** C6: the guard decodes a layer for the middle hop, whose handler answers
    the forwarded cell with an error.  [RelayChatMessageOnion] returns that
    error; [DecryptChatMessageCell] drops it and returns none. *)
Theorem relay_error_is_dropped :
  let net := faulty_net demo_nodes "10.0.0.2:8000" 0 in
  exists inner : list byte,
    result (decrypt_one_layer (lib := demo_lib) (replicate 16 Byte.x41) demo_onion)
    = Ret (mkOnion inner false "10.0.0.2:8000", None) /\
    result (RelayChatMessageOnion (net := net) "10.0.0.2:8000" inner 7)
    = Ret (Some "connection is shut down") /\
    result (DecryptChatMessageCell (lib := demo_lib) (net := net) guard_keys
              (mkCell 7 demo_onion))
    = Ret (true, None).
Proof.
  eexists. split; [vm_compute; reflexivity|].
  split; vm_compute; reflexivity.
Qed.

(** C3: the directory lists three relays and the second one answers
    [SendCircuitInfo] with an error.  The build does not look at the answer:
    it goes on to the third relay, records all three hops and returns no
    error. *)
Theorem failed_hop_is_recorded :
  let net := faulty_net demo_nodes "10.0.0.2:8000" 0 in
  let built := GetCircuitFromDServer (lib := demo_lib) (net := net)
                 (demo_proxy ∅) 9 0 in
  call_SendCircuitInfo (Network := net) "10.0.0.2:8000"
    (mkCircuitInfo 9 (rev (replicate 16 (demo_byte 66))))
  = Some "connection is shut down" /\
  In (EvCall "10.0.0.2:8000" "ORServer.SendCircuitInfo"
        (ArgCircuitInfo (mkCircuitInfo 9 (rev (replicate 16 (demo_byte 66))))))
     (trace built) /\
  In (EvDial "10.0.0.3:8000") (trace built) /\
  exists op' : OnionProxy,
    result built = Ret (op', None) /\
    circuitId op' = 9%N /\
    size (ORInfoByHopNum op') = 3 /\
    address <$> ORInfoByHopNum op' !! 1 = Some "10.0.0.2:8000".
Proof.
  cbv zeta. split; [vm_compute; reflexivity|].
  split; [vm_compute; tauto|]. split; [vm_compute; tauto|].
  eexists. split; [vm_compute; reflexivity|].
  split; [reflexivity|]. split; vm_compute; reflexivity.
Qed.

(* ===================================================================== *)
(** ** The trust check *)

(** C5, as the code has it: when the signer's key is not the pinned one, or
    the signature does not verify under it, [GetCircuitFromDServer] returns
    the one error [notTrustedDirectoryServerError]; it has called the
    directory and nothing else, the hop table is as it was, and the proxy
    goes on (with the new circuit id already set). *)
Theorem untrusted_nodes_abort (lib : Library) (net : Network)
    (op : OnionProxy) (cid : N) (k : nat) (nodes : OnionRouterInfos)
    (pk : ecdsa_PublicKey) :
  call_GetNodes = (nodes, None) ->
  SignerPubKey nodes = Some pk ->
  PubKeyToString pk <> directoryServerPubKey \/
  ecdsa_Verify pk (Hash nodes) (SigR nodes) (SigS nodes) = false ->
  GetCircuitFromDServer op cid k =
  mkM [EvCall (dirServer op) "DServer.GetNodes" (ArgString "")]
      (Ret (mkOnionProxy (addr op) (username op) cid (ircServerAddr op)
              (ORInfoByHopNum op) (dirServer op),
            Some notTrustedDirectoryServerError)).
Proof.
  intros Hnodes Hpk Hbad. unfold GetCircuitFromDServer.
  rewrite Hnodes, Hpk.
  assert (Hcond : negb (String.eqb (PubKeyToString pk) directoryServerPubKey)
                  || negb (ecdsa_Verify pk (Hash nodes) (SigR nodes) (SigS nodes))
                  = true).
  { destruct Hbad as [Hne | Hsig].
    - apply String.eqb_neq in Hne. rewrite Hne. reflexivity.
    - rewrite Hsig. apply orb_true_r. }
  rewrite Hcond. reflexivity.
Qed.

Lemma untrusted_nodes_abort_witness :
  GetCircuitFromDServer (lib := demo_lib) (net := quiet_net nodes_bad_signature)
    (demo_proxy ∅) 9 0 =
  mkM [EvCall "localhost:12345" "DServer.GetNodes" (ArgString "")]
      (Ret (mkOnionProxy "127.0.0.1:9000" "alice" 9 "127.0.0.1:7000" ∅
              "localhost:12345",
            Some notTrustedDirectoryServerError)).
Proof.
  apply (untrusted_nodes_abort demo_lib (quiet_net nodes_bad_signature)
           (demo_proxy ∅) 9 0 nodes_bad_signature
           (String.list_byte_of_string directoryServerPubKey)).
  - reflexivity.
  - reflexivity.
  - right. vm_compute. reflexivity.
Defined.

(** C5, as stated, fails: a set signed by another key and a set
    whose signature does not verify make the build return the same error, so
    no two distinct errors tell the causes apart. *)
Lemma trust_errors_coincide :
  PubKeyToString (Library := demo_lib) (String.list_byte_of_string "04ff")
    <> directoryServerPubKey /\
  ecdsa_Verify (Library := demo_lib)
    (String.list_byte_of_string directoryServerPubKey)
    (Hash nodes_bad_signature) (SigR nodes_bad_signature)
    (SigS nodes_bad_signature) = false /\
  ~ exists UntrustedSigner InvalidSignature : error,
      UntrustedSigner <> InvalidSignature /\
      returned_error
        (GetCircuitFromDServer (lib := demo_lib)
           (net := quiet_net nodes_other_signer) (demo_proxy ∅) 9 0)
      = Some UntrustedSigner /\
      returned_error
        (GetCircuitFromDServer (lib := demo_lib)
           (net := quiet_net nodes_bad_signature) (demo_proxy ∅) 9 0)
      = Some InvalidSignature.
Proof.
  split; [vm_compute; discriminate|]. split; [vm_compute; reflexivity|].
  intros (e1 & e2 & Hne & H1 & H2).
  vm_compute in H1, H2. congruence.
Qed.

(* ===================================================================== *)
(** ** Heartbeats *)

(** C7, as the code has it: the relay pings the directory and sleeps the
    same 500 ms after every ping that went through; the first ping that
    fails ends the process in [HandleFatalError], with no sleep and no
    further ping. *)
Theorem heartbeat_until_failure (net : Network) (or : OnionRouter) (turns : nat) :
  forall tick j : nat,
    (forall i, i < j -> call_KeepNodeOnline (tick + i) (or_addr or) = None) ->
    heartbeat_sleep = 500000000%Z /\
    (turns <= j ->
     startSendingHeartbeatsToServer or turns tick
     = mkM (heartbeat_trace or turns) (Ret tt)) /\
    (j < turns ->
     call_KeepNodeOnline (tick + j) (or_addr or) <> None ->
     startSendingHeartbeatsToServer or turns tick
     = mkM (heartbeat_trace or j ++
            [EvCall (or_dirServer or) "DServer.KeepNodeOnline"
               (ArgString (or_addr or))])
           (Exit "Could not send heartbeat to directory server")).
Proof.
  induction turns as [|turns IH]; intros tick j Hok.
  - split; [reflexivity|]. split; [reflexivity | lia].
  - split; [reflexivity|].
    destruct j as [|j].
    + split; [lia|]. intros _ Hfail. rewrite Nat.add_0_r in Hfail.
      cbn [startSendingHeartbeatsToServer]. unfold sendHeartBeat.
      destruct (call_KeepNodeOnline tick (or_addr or)); [reflexivity | congruence].
    + assert (Hnow : call_KeepNodeOnline tick (or_addr or) = None).
      { rewrite <- (Nat.add_0_r tick). apply Hok. lia. }
      assert (Hlater : forall i, i < j ->
                call_KeepNodeOnline (S tick + i) (or_addr or) = None).
      { intros i Hi. replace (S tick + i) with (tick + S i) by lia.
        apply Hok. lia. }
      destruct (IH (S tick) j Hlater) as (_ & Hall & Hstop).
      cbn [startSendingHeartbeatsToServer]. unfold sendHeartBeat.
      rewrite Hnow. split.
      * intros Hle. rewrite Hall by lia. reflexivity.
      * intros Hlt Hfail.
        replace (tick + S j) with (S tick + j) in Hfail by lia.
        rewrite Hstop by (auto; lia). reflexivity.
Qed.

Lemma heartbeat_until_failure_witness :
  let net := faulty_net demo_nodes "" 2 in
  (forall i, i < 2 ->
     call_KeepNodeOnline (Network := net) (0 + i) (or_addr demo_router) = None) /\
  call_KeepNodeOnline (Network := net) (0 + 2) (or_addr demo_router) <> None /\
  startSendingHeartbeatsToServer (net := net) demo_router 5 0
  = mkM (heartbeat_trace demo_router 2 ++
         [EvCall "localhost:12345" "DServer.KeepNodeOnline"
            (ArgString "10.0.0.1:8000")])
        (Exit "Could not send heartbeat to directory server").
Proof.
  cbv zeta.
  assert (Hok : forall i, i < 2 ->
            call_KeepNodeOnline (Network := faulty_net demo_nodes "" 2) (0 + i)
              (or_addr demo_router) = None).
  { intros i Hi. cbn. rewrite bool_decide_eq_false_2 by lia. reflexivity. }
  split; [exact Hok|]. split; [discriminate|].
  apply (heartbeat_until_failure (faulty_net demo_nodes "" 2) demo_router 5 0 2
           Hok).
  - lia.
  - discriminate.
Defined.

(** C7, as stated, fails: the directory answers the first two
    pings and not the third.  The relay ends there, although three more
    turns were due. *)
Lemma failed_heartbeat_is_fatal :
  call_KeepNodeOnline (Network := faulty_net demo_nodes "" 2) 2
    (or_addr demo_router) = Some "connection is shut down" /\
  startSendingHeartbeatsToServer (net := faulty_net demo_nodes "" 2)
    demo_router 5 0
  = mkM [EvCall "localhost:12345" "DServer.KeepNodeOnline" (ArgString "10.0.0.1:8000");
         EvSleep 500000000;
         EvCall "localhost:12345" "DServer.KeepNodeOnline" (ArgString "10.0.0.1:8000");
         EvSleep 500000000;
         EvCall "localhost:12345" "DServer.KeepNodeOnline" (ArgString "10.0.0.1:8000")]
        (Exit "Could not send heartbeat to directory server").
Proof. split; vm_compute; reflexivity. Qed.

(* ===================================================================== *)
(** ** Sending with no circuit *)

(** C9, as the code has it: with an empty hop table [OnionizeData] returns
    its input as it is, and [SendMessage] then panics on the missing hop 0
    before it dials or calls anything. *)
Theorem send_without_circuit (lib : Library) (net : Network) (op : OnionProxy)
    (coreData : list byte) (message : string) (r : nat) :
  ORInfoByHopNum op = ∅ ->
  OnionizeData op coreData r = ret coreData /\
  SendMessage op message r = mkM [] (Panic nil_dereference).
Proof.
  intros Hempty.
  assert (Hid : forall data, OnionizeData op data r = ret data).
  { intros data. unfold OnionizeData. rewrite Hempty, map_size_empty.
    reflexivity. }
  split; [apply Hid|].
  unfold SendMessage. rewrite Hid. unfold SendChatMessageOnion.
  rewrite Hempty, lookup_empty. reflexivity.
Qed.

Lemma send_without_circuit_witness :
  OnionizeData (lib := demo_lib) (demo_proxy ∅) hello 0 = ret hello /\
  SendMessage (lib := demo_lib) (net := quiet_net demo_nodes) (demo_proxy ∅)
    "hello" 0 = mkM [] (Panic nil_dereference).
Proof.
  apply (send_without_circuit demo_lib (quiet_net demo_nodes) (demo_proxy ∅)
           hello "hello" 0).
  reflexivity.
Defined.

(** C9, as stated, fails: with no circuit [SendMessage] makes no
    call at all, so no cell with the bare message leaves the proxy. *)
Lemma nothing_sent_without_circuit :
  ~ exists (addr : string) (cell : Cell),
      In (EvCall addr "ORServer.DecryptChatMessageCell" (ArgCell cell))
         (trace (SendMessage (lib := demo_lib) (net := quiet_net demo_nodes)
                   (demo_proxy ∅) "hello" 0)).
Proof. intros (a & c & Hin). vm_compute in Hin. exact Hin. Qed.

(* ===================================================================== *)
(** ** Further properties: one layer, the key table, the handlers *)

(** X1: a layer the proxy encrypts under a key AES accepts is read back by
    a relay under the same key as exactly the bytes that were serialised,
    whatever the block function, the IV and the length of the layer: the
    relay unmarshals what the proxy marshalled, and writes nothing. *)
Theorem layer_decrypts_under_its_key (lib : Library) (key : list byte)
    (layer : Onion) (r : nat) :
  aes_key_ok key ->
  exists ct : list byte,
    result (OnionizeData_layer key layer r) = Ret ct /\
    decrypt_one_layer key ct
    = mkM [] (Ret (json_Unmarshal_Onion (json_Marshal_Onion layer))).
Proof.
  intros Hk. rewrite (OnionizeData_layer_ok key layer r Hk). cbn [result].
  eexists. split; [reflexivity|].
  rewrite (decrypt_one_layer_ok key _ _ Hk (length_read_iv r)).
  rewrite length_cfb_stream by lia.
  rewrite cfb_roundtrip; [reflexivity | apply length_read_iv | lia | lia].
Qed.

Lemma layer_decrypts_under_its_key_witness :
  exists ct : list byte,
    result (OnionizeData_layer (lib := demo_lib) (replicate 24 Byte.x5a)
              (mkOnion hello false "10.0.0.2:8000") 3) = Ret ct /\
    decrypt_one_layer (lib := demo_lib) (replicate 24 Byte.x5a) ct
    = mkM [] (Ret (demo_Unmarshal_Onion
                     (demo_Marshal_Onion (mkOnion hello false "10.0.0.2:8000")))).
Proof.
  apply (layer_decrypts_under_its_key demo_lib (replicate 24 Byte.x5a)
           (mkOnion hello false "10.0.0.2:8000") 3).
  right; left; reflexivity.
Defined.

(** X2: neither cell handler ever returns an error.  Whatever the cell, the
    key table and the peers, when [DecryptChatMessageCell] returns it returns
    [ack = true] and [nil], and when [DecryptPollingCell] returns it returns
    [nil]: failures below them end in a panic or in the end of the process,
    or are dropped. *)
Theorem cell_handlers_return_nil (lib : Library) (net : Network)
    (keys : gmap N (list byte)) (cell : Cell) :
  (forall (ack : bool) (err : option error),
     result (DecryptChatMessageCell keys cell) = Ret (ack, err) ->
     ack = true /\ err = None) /\
  (forall (msgs : list string) (err : option error),
     result (DecryptPollingCell keys cell) = Ret (msgs, err) -> err = None).
Proof.
  split.
  - intros ack err. apply DecryptChatMessageCell_returns_nil.
  - intros msgs err. unfold DecryptPollingCell. rewrite result_bind.
    destruct (result (decrypt_one_layer _ _)) as [dec| |]; try discriminate.
    rewrite result_bind.
    destruct (result (if IsExitNode (fst dec) then _ else _)); try discriminate.
    cbn. intros [= _ <-]. reflexivity.
Qed.

(** X3: a cell of a circuit the relay holds no key for makes both handlers
    panic, on the slice bounds when the data is shorter than a block and on
    the nil cipher otherwise; all they have done is report the refused key
    on standard error, and nothing is dialled or forwarded. *)
Theorem unknown_circuit_always_panics (lib : Library) (net : Network)
    (keys : gmap N (list byte)) (cell : Cell) :
  keys !! CircuitId cell = None ->
  exists msg : string,
    msg = (if bool_decide (length (CellData cell) < BlockSize)
           then slice_out_of_range else nil_dereference) /\
    DecryptChatMessageCell keys cell
    = mkM [EvStderr "Error from cipher creation"] (Panic msg) /\
    DecryptPollingCell keys cell
    = mkM [EvStderr "Error from cipher creation"] (Panic msg).
Proof.
  intros Hnone. eexists. split; [reflexivity|]. split.
  - apply DecryptChatMessageCell_unknown_circuit. exact Hnone.
  - unfold DecryptPollingCell. rewrite (lookup_key_absent _ _ Hnone).
    case_bool_decide as Hlen.
    + rewrite decrypt_one_layer_short by assumption.
      rewrite bool_decide_eq_false_2 by apply nil_key_refused. reflexivity.
    + rewrite decrypt_one_layer_no_cipher by (auto using nil_key_refused; lia).
      reflexivity.
Qed.

Lemma unknown_circuit_always_panics_witness :
  exists msg : string,
    msg = (if bool_decide (length (CellData (mkCell 9 hello)) < BlockSize)
           then slice_out_of_range else nil_dereference) /\
    DecryptChatMessageCell (lib := demo_lib) (net := quiet_net demo_nodes)
      guard_keys (mkCell 9 hello)
    = mkM [EvStderr "Error from cipher creation"] (Panic msg) /\
    DecryptPollingCell (lib := demo_lib) (net := quiet_net demo_nodes)
      guard_keys (mkCell 9 hello)
    = mkM [EvStderr "Error from cipher creation"] (Panic msg).
Proof.
  apply (unknown_circuit_always_panics demo_lib (quiet_net demo_nodes)
           guard_keys (mkCell 9 hello)).
  vm_compute. reflexivity.
Defined.

(** X4: key agreement at one hop.  When the relay's private key undoes the
    encryption under the public key the directory lists for it, the circuit
    info the proxy sends in one turn of the build, handed to the relay's
    [SendCircuitInfo], leaves in the relay's table, under the circuit id, the
    very key the proxy records for that hop; the relay acknowledges with no
    error. *)
Theorem hop_key_agreement (lib : Library) (net : Network) (or : OnionRouter)
    (keys : gmap N (list byte)) (cid : N) (k hopNum : nat)
    (tbl : gmap nat orInfo) (info : OnionRouterInfo) :
  rpc_Dial (Address info) = None ->
  RSADecrypt (or_privKey or)
    (RSAEncrypt (PubKey info) (GenerateAESKey (k + hopNum)))
  = GenerateAESKey (k + hopNum) ->
  exists (ci : CircuitInfo) (tbl' : gmap nat orInfo)
         (keys' : gmap N (list byte)),
    GetCircuit_hop cid k tbl hopNum info
    = mkM [EvDial (Address info);
           EvCall (Address info) "ORServer.SendCircuitInfo" (ArgCircuitInfo ci);
           EvClose (Address info)]
          (Ret tbl') /\
    SendCircuitInfo or keys ci = ret (keys', true, None) /\
    sharedKey <$> tbl' !! hopNum = Some (lookup_key keys' cid).
Proof.
  intros Hdial Hrsa. unfold GetCircuit_hop, DialOR. rewrite Hdial.
  eexists _, _, _. split; [reflexivity|]. split; [reflexivity|].
  unfold lookup_key. cbn [CICircuitId EncryptedSharedKey].
  rewrite !lookup_insert_eq. cbn. rewrite Hrsa. reflexivity.
Qed.

Lemma hop_key_agreement_witness :
  exists (ci : CircuitInfo) (tbl' : gmap nat orInfo)
         (keys' : gmap N (list byte)),
    GetCircuit_hop (lib := demo_lib) (net := quiet_net demo_nodes) 9 0 ∅ 1
      (mkOnionRouterInfo "10.0.0.2:8000" [Byte.x0b])
    = mkM [EvDial "10.0.0.2:8000";
           EvCall "10.0.0.2:8000" "ORServer.SendCircuitInfo" (ArgCircuitInfo ci);
           EvClose "10.0.0.2:8000"]
          (Ret tbl') /\
    SendCircuitInfo (lib := demo_lib) demo_router guard_keys ci
    = ret (keys', true, None) /\
    sharedKey <$> tbl' !! 1 = Some (lookup_key keys' 9).
Proof.
  apply (hop_key_agreement demo_lib (quiet_net demo_nodes) demo_router
           guard_keys 9 0 1 ∅ (mkOnionRouterInfo "10.0.0.2:8000" [Byte.x0b])).
  - reflexivity.
  - vm_compute. reflexivity.
Defined.



(* ===================================================================== *)
(** ** Further properties: a cell on its way *)

Lemma M_eta {A} (m : M A) : m = mkM (trace m) (result m).
Proof. destruct m; reflexivity. Qed.

Lemma bind_Ret {A B} (m : M A) (f : A -> M B) (a : A) :
  result m = Ret a ->
  bind m f = mkM (trace m ++ trace (f a)) (result (f a)).
Proof. intros H. unfold bind. rewrite H. reflexivity. Qed.

Lemma decrypt_one_layer_quiet {lib : Library} (key data : list byte) :
  aes_key_ok key -> trace (decrypt_one_layer key data) = [].
Proof.
  intros Hk. unfold decrypt_one_layer. rewrite (aes_NewCipher_ok key Hk).
  cbn [bind ret result trace app]. case_bool_decide; reflexivity.
Qed.

Lemma decrypt_one_layer_value {lib : Library} (key data : list byte)
    (dec : Onion * option error) :
  aes_key_ok key ->
  result (decrypt_one_layer key data) = Ret dec ->
  decrypt_one_layer key data = mkM [] (Ret dec).
Proof.
  intros Hk Hres. rewrite (M_eta (decrypt_one_layer key data)).
  rewrite (decrypt_one_layer_quiet key data Hk), Hres. reflexivity.
Qed.

Lemma lookup_key_present (keys : gmap N (list byte)) (id : N)
    (key : list byte) :
  keys !! id = Some key -> lookup_key keys id = key.
Proof. intros H. unfold lookup_key. rewrite H. reflexivity. Qed.

Lemma unwrap_layers_cons {lib : Library} (k : list byte)
    (ks : list (list byte)) (data : list byte)
    (layers : list (Onion * option error)) (left_over : list byte) :
  result (unwrap_layers (k :: ks) data) = Ret (layers, left_over) ->
  exists (dec : Onion * option error) (l : list (Onion * option error)),
    result (decrypt_one_layer k data) = Ret dec /\
    result (unwrap_layers ks (Data (fst dec))) = Ret (l, left_over) /\
    layers = dec :: l.
Proof.
  cbn [unwrap_layers]. rewrite result_bind.
  destruct (result (decrypt_one_layer k data)) as [dec| |]; try discriminate.
  rewrite result_bind.
  destruct (result (unwrap_layers ks (Data (fst dec)))) as [[l d]| |] eqn:E;
    try discriminate.
  cbn. intros [= <- <-]. exists dec, l. auto.
Qed.

(** X6: the guard of a circuit of two hops or more.  Given the onion the
    proxy built and the guard's key under the circuit id, the guard dials
    the second hop, sends it one cell with the same circuit id, closes the
    connection and acknowledges; the cell carries the onion of the rest of
    the circuit, which the remaining hops' keys unwrap to the message. *)
Theorem guard_forwards_inner_onion (lib : Library) (net : Network)
    (op : OnionProxy) (h0 h1 : orInfo) (rest : list orInfo)
    (message : list byte) (r : nat) (keys : gmap N (list byte)) (cid : N) :
  ORInfoByHopNum op = hop_table (h0 :: h1 :: rest) ->
  Forall (fun h => aes_key_ok (sharedKey h)) (h0 :: h1 :: rest) ->
  (forall (d : list byte) (e : bool) (a : string),
     a = "" \/ a ∈ address <$> h0 :: h1 :: rest ->
     json_Unmarshal_Onion (json_Marshal_Onion (mkOnion d e a))
     = (mkOnion d e a, None)) ->
  keys !! cid = Some (sharedKey h0) ->
  rpc_Dial (address h1) = None ->
  exists (onion inner : list byte) (layers : list (Onion * option error)),
    result (OnionizeData op message r) = Ret onion /\
    DecryptChatMessageCell keys (mkCell cid onion)
    = mkM [EvDial (address h1);
           EvCall (address h1) "ORServer.DecryptChatMessageCell"
             (ArgCell (mkCell cid inner));
           EvClose (address h1)]
          (Ret (true, None)) /\
    result (unwrap_layers (sharedKey <$> h1 :: rest) inner)
    = Ret (layers, message).
Proof.
  intros Htbl Hkeys Hjson Hkey Hdial.
  set (hops := h0 :: h1 :: rest) in *.
  destruct (OnionizeData_loop_unwrap hops Hkeys Hjson (length hops) r message
              ltac:(lia)) as (onion & layers & Hloop & Hun & Hsays).
  rewrite take_ge in Hun by (rewrite length_fmap; lia).
  unfold hops in Hun. rewrite fmap_cons in Hun.
  apply unwrap_layers_cons in Hun as (dec & l & Hdec & Hin & ->).
  destruct (Hsays 0 dec eq_refl) as (_ & Hexit & Hnext).
  assert (Hnot : IsExitNode (fst dec) = false).
  { destruct (IsExitNode (fst dec)); [|reflexivity].
    destruct Hexit as [Hexit _]. specialize (Hexit eq_refl).
    unfold hops in Hexit. cbn in Hexit. lia. }
  specialize (Hnext h1 eq_refl).
  assert (Hk0 : aes_key_ok (sharedKey h0)).
  { apply Forall_cons in Hkeys as [Hk0 _]. exact Hk0. }
  exists onion, (Data (fst dec)), l. split; [|split].
  - unfold OnionizeData. rewrite Htbl, size_hop_table. exact Hloop.
  - unfold DecryptChatMessageCell. cbn [CircuitId CellData].
    rewrite (lookup_key_present _ _ _ Hkey).
    rewrite (decrypt_one_layer_value _ _ _ Hk0 Hdec).
    unfold bind at 1. cbn [result trace app].
    rewrite Hnot, Hnext. unfold RelayChatMessageOnion, DialOR.
    rewrite Hdial. reflexivity.
  - exact Hin.
Qed.

Lemma guard_forwards_inner_onion_witness :
  exists (onion inner : list byte) (layers : list (Onion * option error)),
    result (OnionizeData (lib := demo_lib) (demo_proxy (hop_table demo_hops))
              hello 0) = Ret onion /\
    DecryptChatMessageCell (lib := demo_lib) (net := quiet_net demo_nodes)
      guard_keys (mkCell 7 onion)
    = mkM [EvDial "10.0.0.2:8000";
           EvCall "10.0.0.2:8000" "ORServer.DecryptChatMessageCell"
             (ArgCell (mkCell 7 inner));
           EvClose "10.0.0.2:8000"]
          (Ret (true, None)) /\
    result (unwrap_layers (lib := demo_lib)
              [replicate 16 Byte.x42; replicate 16 Byte.x43] inner)
    = Ret (layers, hello).
Proof.
  apply (guard_forwards_inner_onion demo_lib (quiet_net demo_nodes)
           (demo_proxy (hop_table demo_hops))
           (mkOrInfo "10.0.0.1:8000" [Byte.x0a] (replicate 16 Byte.x41))
           (mkOrInfo "10.0.0.2:8000" [Byte.x0b] (replicate 16 Byte.x42))
           [mkOrInfo "10.0.0.3:8000" [Byte.x0c] (replicate 16 Byte.x43)]
           hello 0 guard_keys 7).
  - reflexivity.
  - repeat constructor.
  - intros d e a _. apply demo_codec_round_trip.
  - reflexivity.
  - reflexivity.
Defined.

Lemma exit_cell_decodes {lib : Library} (key : list byte) (chat : ChatMessage)
    (r : nat) :
  aes_key_ok key ->
  json_Unmarshal_Onion (json_Marshal_Onion (exit_layer chat))
  = (exit_layer chat, None) ->
  exists ct : list byte,
    result (OnionizeData_layer key (exit_layer chat) r) = Ret ct /\
    decrypt_one_layer key ct = mkM [] (Ret (exit_layer chat, None)).
Proof.
  intros Hk Hjson.
  rewrite (OnionizeData_layer_ok key (exit_layer chat) r Hk). cbn [result].
  eexists. split; [reflexivity|].
  apply (decrypt_one_layer_value key _ _ Hk).
  rewrite <- Hjson.
  apply (decrypt_OnionizeData_layer key (exit_layer chat) r _ Hk).
  rewrite (OnionizeData_layer_ok key (exit_layer chat) r Hk). reflexivity.
Qed.

(** X7: the exit relay.  Given the innermost layer of a chat message,
    encrypted under the key it holds for the circuit, and a JSON codec that
    carries the layer and the message unchanged, the relay dials the chat
    server the message names, publishes ["username: message"] there in one
    call, closes the connection and acknowledges. *)
Theorem exit_relay_publishes (lib : Library) (net : Network)
    (keys : gmap N (list byte)) (cid : N) (key : list byte)
    (chat : ChatMessage) (r : nat) :
  aes_key_ok key ->
  keys !! cid = Some key ->
  json_Unmarshal_Onion (json_Marshal_Onion (exit_layer chat))
  = (exit_layer chat, None) ->
  json_Unmarshal_ChatMessage (json_Marshal_ChatMessage chat) = chat ->
  rpc_Dial (IRCServerAddr chat) = None ->
  call_PublishMessage (IRCServerAddr chat)
    (Username chat +:+ ": " +:+ Message chat) = None ->
  exists ct : list byte,
    result (OnionizeData_layer key (exit_layer chat) r) = Ret ct /\
    DecryptChatMessageCell keys (mkCell cid ct)
    = mkM [EvDial (IRCServerAddr chat);
           EvCall (IRCServerAddr chat) "CServer.PublishMessage"
             (ArgString (Username chat +:+ ": " +:+ Message chat));
           EvClose (IRCServerAddr chat)]
          (Ret (true, None)).
Proof.
  intros Hk Hkey Hjson Hchat Hdial Hcall.
  destruct (exit_cell_decodes key chat r Hk Hjson) as (ct & Henc & Hdec).
  exists ct. split; [exact Henc|].
  unfold DecryptChatMessageCell. cbn [CircuitId CellData].
  rewrite (lookup_key_present _ _ _ Hkey), Hdec.
  unfold bind at 1. cbn [result trace app fst exit_layer IsExitNode Data].
  unfold DeliverChatMessage. rewrite Hchat, Hdial, Hcall. reflexivity.
Qed.

Lemma exit_relay_publishes_witness :
  exists ct : list byte,
    result (OnionizeData_layer (lib := demo_lib) (replicate 16 Byte.x43)
              (exit_layer (lib := demo_lib) demo_chat) 0) = Ret ct /\
    DecryptChatMessageCell (lib := demo_lib) (net := quiet_net demo_nodes)
      {[ 7%N := replicate 16 Byte.x43 ]} (mkCell 7 ct)
    = mkM [EvDial "127.0.0.1:7000";
           EvCall "127.0.0.1:7000" "CServer.PublishMessage"
             (ArgString "alice: hello");
           EvClose "127.0.0.1:7000"]
          (Ret (true, None)).
Proof.
  apply (exit_relay_publishes demo_lib (quiet_net demo_nodes)
           {[ 7%N := replicate 16 Byte.x43 ]} 7 (replicate 16 Byte.x43)
           demo_chat 0).
  - left; reflexivity.
  - reflexivity.
  - apply demo_codec_round_trip.
  - vm_compute. reflexivity.
  - reflexivity.
  - reflexivity.
Defined.

(** X8: the exit relay without its chat server.  When the server the
    message names cannot be dialled, [DeliverChatMessage] goes on to call
    through the nil client and panics: the handler has dialled and done
    nothing else, and the error of the dial is never reported. *)
Theorem exit_relay_panics_without_server (lib : Library) (net : Network)
    (keys : gmap N (list byte)) (cid : N) (key : list byte)
    (chat : ChatMessage) (r : nat) (err : error) :
  aes_key_ok key ->
  keys !! cid = Some key ->
  json_Unmarshal_Onion (json_Marshal_Onion (exit_layer chat))
  = (exit_layer chat, None) ->
  json_Unmarshal_ChatMessage (json_Marshal_ChatMessage chat) = chat ->
  rpc_Dial (IRCServerAddr chat) = Some err ->
  exists ct : list byte,
    result (OnionizeData_layer key (exit_layer chat) r) = Ret ct /\
    DecryptChatMessageCell keys (mkCell cid ct)
    = mkM [EvDial (IRCServerAddr chat)] (Panic nil_dereference).
Proof.
  intros Hk Hkey Hjson Hchat Hdial.
  destruct (exit_cell_decodes key chat r Hk Hjson) as (ct & Henc & Hdec).
  exists ct. split; [exact Henc|].
  unfold DecryptChatMessageCell. cbn [CircuitId CellData].
  rewrite (lookup_key_present _ _ _ Hkey), Hdec.
  unfold bind at 1. cbn [result trace app fst exit_layer IsExitNode Data].
  unfold DeliverChatMessage. rewrite Hchat, Hdial. reflexivity.
Qed.

Lemma exit_relay_panics_without_server_witness :
  exists ct : list byte,
    result (OnionizeData_layer (lib := demo_lib) (replicate 16 Byte.x43)
              (exit_layer (lib := demo_lib) lost_chat) 0) = Ret ct /\
    DecryptChatMessageCell (lib := demo_lib)
      (net := faulty_net demo_nodes "10.0.0.2:8000" 0)
      {[ 7%N := replicate 16 Byte.x43 ]} (mkCell 7 ct)
    = mkM [EvDial ""] (Panic nil_dereference).
Proof.
  apply (exit_relay_panics_without_server demo_lib
           (faulty_net demo_nodes "10.0.0.2:8000" 0)
           {[ 7%N := replicate 16 Byte.x43 ]} 7 (replicate 16 Byte.x43)
           lost_chat 0 "dial tcp: missing address").
  - left; reflexivity.
  - reflexivity.
  - apply demo_codec_round_trip.
  - vm_compute. reflexivity.
  - reflexivity.
Defined.

(* ===================================================================== *)
(** ** Further properties: building and renewing the circuit *)

Lemma map_seq_union_app {A} (new old : list A) :
  (map_seq 0 new ∪ map_seq 0 old : gmap nat A)
  = map_seq 0 (new ++ drop (length new) old).
Proof.
  apply map_eq. intros i.
  rewrite lookup_union, !lookup_map_seq_0.
  destruct (new !! i) as [x|] eqn:E.
  - rewrite (lookup_app_l_Some _ _ _ _ E). destruct (old !! i); reflexivity.
  - apply lookup_ge_None in E.
    rewrite lookup_app_r, lookup_drop by lia.
    replace (length new + (i - length new)) with i by lia.
    destruct (old !! i); reflexivity.
Qed.

Lemma length_built_hops {lib : Library} (k s : nat)
    (infos : list OnionRouterInfo) :
  length (built_hops k s infos) = length infos.
Proof. apply length_imap. Qed.

(** X9: a build over an existing circuit.  For a trusted node set whose
    relays can all be dialled, [GetCircuitFromDServer] sets the new circuit
    id and records one hop per relay listed, in order; it does not clear the
    table first, so when fewer relays are listed than the old circuit had
    hops the old hops beyond the new ones stay in the table, and the table
    has as many hops as the longer of the two. *)
Theorem build_over_old_circuit (lib : Library) (net : Network)
    (op : OnionProxy) (cid : N) (k : nat) (nodes : OnionRouterInfos)
    (pk : ecdsa_PublicKey) (old : list orInfo) :
  call_GetNodes = (nodes, None) ->
  SignerPubKey nodes = Some pk ->
  PubKeyToString pk = directoryServerPubKey ->
  ecdsa_Verify pk (Hash nodes) (SigR nodes) (SigS nodes) = true ->
  Forall (fun info => rpc_Dial (Address info) = None) (ORInfos nodes) ->
  ORInfoByHopNum op = hop_table old ->
  exists op' : OnionProxy,
    result (GetCircuitFromDServer op cid k) = Ret (op', None) /\
    circuitId op' = cid /\
    ORInfoByHopNum op'
    = hop_table (built_hops k 0 (ORInfos nodes)
                 ++ drop (length (ORInfos nodes)) old) /\
    size (ORInfoByHopNum op') = length (ORInfos nodes) `max` length old.
Proof.
  intros Hnodes Hpk Hstr Hsig Hdial Hold. unfold GetCircuitFromDServer.
  rewrite Hnodes, Hpk, Hstr, String.eqb_refl, Hsig.
  cbn [HandleFatalError negb orb]. rewrite !result_bind.
  cbn [emit ret result ORInfoByHopNum].
  rewrite (GetCircuit_loop_builds net cid k _ _ 0 Hdial), Hold.
  eexists. split; [reflexivity|]. cbn [circuitId ORInfoByHopNum].
  split; [reflexivity|].
  unfold hop_table. rewrite map_seq_union_app, length_built_hops.
  split; [reflexivity|].
  rewrite size_map_seq, length_app, length_built_hops, length_drop. lia.
Qed.

Lemma build_over_old_circuit_witness :
  exists op' : OnionProxy,
    result (GetCircuitFromDServer (lib := demo_lib) (net := quiet_net two_nodes)
              (demo_proxy (hop_table demo_hops)) 9 3)
    = Ret (op', None) /\
    circuitId op' = 9%N /\
    ORInfoByHopNum op'
    = hop_table [ mkOrInfo "10.0.0.8:8000" [Byte.x0d] (replicate 16 Byte.x44);
                  mkOrInfo "10.0.0.9:8000" [Byte.x0e] (replicate 16 Byte.x45);
                  mkOrInfo "10.0.0.3:8000" [Byte.x0c] (replicate 16 Byte.x43) ] /\
    size (ORInfoByHopNum op') = 2 `max` 3.
Proof.
  apply (build_over_old_circuit demo_lib (quiet_net two_nodes)
           (demo_proxy (hop_table demo_hops)) 9 3 two_nodes
           (String.list_byte_of_string directoryServerPubKey) demo_hops).
  - reflexivity.
  - reflexivity.
  - vm_compute. reflexivity.
  - vm_compute. reflexivity.
  - repeat constructor.
  - reflexivity.
Defined.

Lemma GetCircuitFromDServer_refused {lib : Library} {net : Network}
    (op : OnionProxy) (cid : N) (k : nat) (nodes : OnionRouterInfos)
    (pk : ecdsa_PublicKey) :
  call_GetNodes = (nodes, None) ->
  SignerPubKey nodes = Some pk ->
  PubKeyToString pk <> directoryServerPubKey \/
  ecdsa_Verify pk (Hash nodes) (SigR nodes) (SigS nodes) = false ->
  GetCircuitFromDServer op cid k =
  mkM [EvCall (dirServer op) "DServer.GetNodes" (ArgString "")]
      (Ret (mkOnionProxy (addr op) (username op) cid (ircServerAddr op)
              (ORInfoByHopNum op) (dirServer op),
            Some notTrustedDirectoryServerError)).
Proof.
  intros Hnodes Hpk Hbad. unfold GetCircuitFromDServer.
  rewrite Hnodes, Hpk.
  destruct Hbad as [Hne | Hsig].
  - apply String.eqb_neq in Hne. rewrite Hne. reflexivity.
  - rewrite Hsig, orb_true_r. reflexivity.
Qed.

(** X10: the renewal loop ends at the first node set it does not trust.
    However many turns were due, the proxy sleeps once, asks the directory
    once and returns the error; it is left with the new circuit id over the
    hop table of the old circuit, and no later renewal takes place. *)
Theorem renewal_stops_at_refusal (lib : Library) (net : Network)
    (op : OnionProxy) (turns : nat) (cids : nat -> N) (i k : nat)
    (nodes : OnionRouterInfos) (pk : ecdsa_PublicKey) :
  call_GetNodes = (nodes, None) ->
  SignerPubKey nodes = Some pk ->
  PubKeyToString pk <> directoryServerPubKey \/
  ecdsa_Verify pk (Hash nodes) (SigR nodes) (SigS nodes) = false ->
  GetNewCircuitEveryTwoMinutes op (S turns) cids i k =
  mkM [EvSleep 120000000000;
       EvCall (dirServer op) "DServer.GetNodes" (ArgString "")]
      (Ret (mkOnionProxy (addr op) (username op) (cids i) (ircServerAddr op)
              (ORInfoByHopNum op) (dirServer op),
            Some notTrustedDirectoryServerError)).
Proof.
  intros Hnodes Hpk Hbad. cbn [GetNewCircuitEveryTwoMinutes].
  rewrite (GetCircuitFromDServer_refused op (cids i) k nodes pk Hnodes Hpk Hbad).
  reflexivity.
Qed.

Lemma renewal_stops_at_refusal_witness :
  GetNewCircuitEveryTwoMinutes (lib := demo_lib)
    (net := quiet_net nodes_other_signer)
    (demo_proxy (hop_table demo_hops)) 5 (fun i => N.of_nat (100 + i)) 0 3 =
  mkM [EvSleep 120000000000;
       EvCall "localhost:12345" "DServer.GetNodes" (ArgString "")]
      (Ret (mkOnionProxy "127.0.0.1:9000" "alice" 100 "127.0.0.1:7000"
              (hop_table demo_hops) "localhost:12345",
            Some notTrustedDirectoryServerError)).
Proof.
  apply (renewal_stops_at_refusal demo_lib (quiet_net nodes_other_signer)
           (demo_proxy (hop_table demo_hops)) 4 (fun i => N.of_nat (100 + i))
           0 3 nodes_other_signer (String.list_byte_of_string "04ff")).
  - reflexivity.
  - reflexivity.
  - left. vm_compute. discriminate.
Defined.

(* ===================================================================== *)
(** ** Further properties: sending *)

Lemma bind_ret_l {A B} (a : A) (f : A -> M B) : bind (ret a) f = f a.
Proof. unfold bind, ret. cbn. destruct (f a); reflexivity. Qed.

Lemma bind_quiet {A B} (a : A) (f : A -> M B) :
  bind (mkM [] (Ret a)) f = f a.
Proof. apply bind_ret_l. Qed.

Section Sending.
Context {lib : Library}.
Variable hops : list orInfo.
Hypothesis keys_ok : Forall (fun h => aes_key_ok (sharedKey h)) hops.
Hypothesis rand_full : forall j : nat, BlockSize <= length (rand_Reader j).

Lemma OnionizeData_loop_value (k : nat) :
  forall (r : nat) (data : list byte),
    k <= length hops ->
    exists onion : list byte,
      OnionizeData_loop (hop_table hops) (length hops) k r data
      = mkM [] (Ret onion).
Proof.
  induction k as [|hopNum IH]; intros r data Hk.
  - exists data. reflexivity.
  - destruct (lookup_lt_is_Some_2 hops hopNum ltac:(lia)) as [hop Hhop].
    assert (Hkey : aes_key_ok (sharedKey hop)).
    { eapply (proj1 (Forall_lookup _ _) keys_ok); eauto. }
    assert (Hlayer : exists layer,
      (if bool_decide (hopNum = length hops - 1)
       then ret (mkOnion data true "")
       else match hop_table hops !! (hopNum + 1) with
            | None => panic nil_dereference
            | Some next => ret (mkOnion data false (address next))
            end) = ret layer).
    { case_bool_decide as Hlast; [eexists; reflexivity|].
      destruct (lookup_lt_is_Some_2 hops (hopNum + 1) ltac:(lia)) as [nx Hnx].
      rewrite lookup_hop_table, Hnx. eexists; reflexivity. }
    destruct Hlayer as [layer Hlayer].
    cbn [OnionizeData_loop]. rewrite Hlayer, bind_ret_l.
    rewrite lookup_hop_table, Hhop.
    rewrite (OnionizeData_layer_ok (sharedKey hop) layer r Hkey).
    rewrite bool_decide_eq_false_2 by (specialize (rand_full r); lia).
    rewrite bind_quiet. apply IH. lia.
Qed.

End Sending.

Lemma SendMessage_value {lib : Library} {net : Network} (op : OnionProxy)
    (h0 : orInfo) (rest : list orInfo) (message : string) (r : nat) :
  ORInfoByHopNum op = hop_table (h0 :: rest) ->
  Forall (fun h => aes_key_ok (sharedKey h)) (h0 :: rest) ->
  (forall j : nat, BlockSize <= length (rand_Reader j)) ->
  rpc_Dial (address h0) = None ->
  exists onion : list byte,
    OnionizeData op
      (json_Marshal_ChatMessage
         (mkChatMessage (ircServerAddr op) (username op) message)) r
    = mkM [] (Ret onion) /\
    trace (SendMessage op message r)
    = [EvDial (address h0);
       EvCall (address h0) "ORServer.DecryptChatMessageCell"
         (ArgCell (mkCell (circuitId op) onion));
       EvClose (address h0)] /\
    (call_DecryptChatMessageCell (address h0) (mkCell (circuitId op) onion)
     = None ->
     result (SendMessage op message r) = Ret (true, None)).
Proof.
  intros Htbl Hkeys Hrand Hdial.
  destruct (OnionizeData_loop_value (h0 :: rest) Hkeys Hrand
              (length (h0 :: rest)) r
              (json_Marshal_ChatMessage
                 (mkChatMessage (ircServerAddr op) (username op) message))
              ltac:(lia)) as [onion Honion].
  assert (Hon : OnionizeData op
                  (json_Marshal_ChatMessage
                     (mkChatMessage (ircServerAddr op) (username op) message)) r
                = mkM [] (Ret onion)).
  { unfold OnionizeData. rewrite Htbl, size_hop_table. exact Honion. }
  exists onion. split; [exact Hon|].
  unfold SendMessage. rewrite Hon, bind_quiet.
  unfold SendChatMessageOnion. rewrite Htbl, lookup_hop_table.
  cbn [lookup list_lookup]. unfold DialOR. rewrite Hdial.
  destruct (call_DecryptChatMessageCell (address h0)
              (mkCell (circuitId op) onion)) as [e|]; split;
    try reflexivity; discriminate.
Qed.

(** X11: sending over a complete circuit.  With keys AES accepts, a JSON
    codec that carries the layers, a working [rand.Reader] and a guard that
    can be dialled and answers without error, [SendMessage] makes one
    connection, to the address of hop 0, sends one cell under the proxy's
    circuit id, closes and returns [ack = true] with no error; the cell is an
    onion that the hops' keys, in hop order, unwrap to the serialised chat
    message made of the proxy's chat server, its user name and the text. *)
Theorem SendMessage_sends_onion_to_guard (lib : Library) (net : Network)
    (op : OnionProxy) (h0 : orInfo) (rest : list orInfo) (message : string)
    (r : nat) :
  ORInfoByHopNum op = hop_table (h0 :: rest) ->
  Forall (fun h => aes_key_ok (sharedKey h)) (h0 :: rest) ->
  (forall (d : list byte) (e : bool) (a : string),
     a = "" \/ a ∈ address <$> h0 :: rest ->
     json_Unmarshal_Onion (json_Marshal_Onion (mkOnion d e a))
     = (mkOnion d e a, None)) ->
  (forall j : nat, BlockSize <= length (rand_Reader j)) ->
  rpc_Dial (address h0) = None ->
  (forall cell : Cell, call_DecryptChatMessageCell (address h0) cell = None) ->
  exists (onion : list byte) (layers : list (Onion * option error)),
    SendMessage op message r
    = mkM [EvDial (address h0);
           EvCall (address h0) "ORServer.DecryptChatMessageCell"
             (ArgCell (mkCell (circuitId op) onion));
           EvClose (address h0)]
          (Ret (true, None)) /\
    result (unwrap_layers (sharedKey <$> h0 :: rest) onion)
    = Ret (layers,
           json_Marshal_ChatMessage
             (mkChatMessage (ircServerAddr op) (username op) message)).
Proof.
  intros Htbl Hkeys Hjson Hrand Hdial Hcall.
  destruct (SendMessage_value op h0 rest message r Htbl Hkeys Hrand Hdial)
    as (onion & Hon & Htrace & Hres).
  destruct (OnionizeData_loop_unwrap (h0 :: rest) Hkeys Hjson
              (length (h0 :: rest)) r
              (json_Marshal_ChatMessage
                 (mkChatMessage (ircServerAddr op) (username op) message))
              ltac:(lia)) as (onion' & layers & Hloop & Hun & _).
  rewrite take_ge in Hun by (rewrite length_fmap; lia).
  assert (onion' = onion) as ->.
  { unfold OnionizeData in Hon. rewrite Htbl, size_hop_table in Hon.
    rewrite Hon in Hloop. cbn in Hloop. congruence. }
  exists onion, layers. split; [|exact Hun].
  rewrite (M_eta (SendMessage op message r)), Htrace, (Hres (Hcall _)).
  reflexivity.
Qed.

Lemma demo_rand_full (j : nat) : BlockSize <= length (demo_rand j).
Proof. unfold demo_rand. rewrite length_replicate. lia. Qed.

Lemma SendMessage_sends_onion_to_guard_witness :
  exists (onion : list byte) (layers : list (Onion * option error)),
    SendMessage (lib := demo_lib) (net := quiet_net demo_nodes)
      (demo_proxy (hop_table demo_hops)) "hello" 0
    = mkM [EvDial "10.0.0.1:8000";
           EvCall "10.0.0.1:8000" "ORServer.DecryptChatMessageCell"
             (ArgCell (mkCell 7 onion));
           EvClose "10.0.0.1:8000"]
          (Ret (true, None)) /\
    result (unwrap_layers (lib := demo_lib) (sharedKey <$> demo_hops) onion)
    = Ret (layers, demo_Marshal_ChatMessage demo_chat).
Proof.
  apply (SendMessage_sends_onion_to_guard demo_lib (quiet_net demo_nodes)
           (demo_proxy (hop_table demo_hops))
           (mkOrInfo "10.0.0.1:8000" [Byte.x0a] (replicate 16 Byte.x41))
           [mkOrInfo "10.0.0.2:8000" [Byte.x0b] (replicate 16 Byte.x42);
            mkOrInfo "10.0.0.3:8000" [Byte.x0c] (replicate 16 Byte.x43)]
           "hello" 0).
  - reflexivity.
  - repeat constructor.
  - intros d e a _. apply demo_codec_round_trip.
  - apply demo_rand_full.
  - reflexivity.
  - reflexivity.
Defined.

(** X12: a refused build breaks the circuit in use.  The circuit id is
    drawn before the node set is checked, so after a build refused for its
    signer or signature the proxy still sends over the old hops, but under
    the new id; a guard that was given no key under that id, as none was sent
    by the refused build, panics on the cell. *)
Theorem refused_build_breaks_circuit (lib : Library) (net : Network)
    (op : OnionProxy) (cid : N) (k : nat) (nodes : OnionRouterInfos)
    (pk : ecdsa_PublicKey) (h0 : orInfo) (rest : list orInfo)
    (message : string) (r : nat) (relay_keys : gmap N (list byte)) :
  call_GetNodes = (nodes, None) ->
  SignerPubKey nodes = Some pk ->
  PubKeyToString pk <> directoryServerPubKey \/
  ecdsa_Verify pk (Hash nodes) (SigR nodes) (SigS nodes) = false ->
  ORInfoByHopNum op = hop_table (h0 :: rest) ->
  Forall (fun h => aes_key_ok (sharedKey h)) (h0 :: rest) ->
  (forall j : nat, BlockSize <= length (rand_Reader j)) ->
  rpc_Dial (address h0) = None ->
  relay_keys !! cid = None ->
  exists (op' : OnionProxy) (onion : list byte) (msg : string),
    result (GetCircuitFromDServer op cid k)
    = Ret (op', Some notTrustedDirectoryServerError) /\
    trace (SendMessage op' message r)
    = [EvDial (address h0);
       EvCall (address h0) "ORServer.DecryptChatMessageCell"
         (ArgCell (mkCell cid onion));
       EvClose (address h0)] /\
    DecryptChatMessageCell relay_keys (mkCell cid onion)
    = mkM [EvStderr "Error from cipher creation"] (Panic msg).
Proof.
  intros Hnodes Hpk Hbad Htbl Hkeys Hrand Hdial Hnone.
  rewrite (GetCircuitFromDServer_refused op cid k nodes pk Hnodes Hpk Hbad).
  set (op' := mkOnionProxy (addr op) (username op) cid (ircServerAddr op)
                (ORInfoByHopNum op) (dirServer op)).
  destruct (SendMessage_value op' h0 rest message r Htbl Hkeys Hrand Hdial)
    as (onion & _ & Htrace & _).
  exists op', onion. eexists. split; [reflexivity|]. split; [exact Htrace|].
  apply DecryptChatMessageCell_unknown_circuit. exact Hnone.
Qed.

Lemma refused_build_breaks_circuit_witness :
  exists (op' : OnionProxy) (onion : list byte) (msg : string),
    result (GetCircuitFromDServer (lib := demo_lib)
              (net := quiet_net nodes_bad_signature)
              (demo_proxy (hop_table demo_hops)) 9 3)
    = Ret (op', Some notTrustedDirectoryServerError) /\
    trace (SendMessage (lib := demo_lib) (net := quiet_net nodes_bad_signature)
             op' "hello" 0)
    = [EvDial "10.0.0.1:8000";
       EvCall "10.0.0.1:8000" "ORServer.DecryptChatMessageCell"
         (ArgCell (mkCell 9 onion));
       EvClose "10.0.0.1:8000"] /\
    DecryptChatMessageCell (lib := demo_lib)
      (net := quiet_net nodes_bad_signature) guard_keys (mkCell 9 onion)
    = mkM [EvStderr "Error from cipher creation"] (Panic msg).
Proof.
  apply (refused_build_breaks_circuit demo_lib (quiet_net nodes_bad_signature)
           (demo_proxy (hop_table demo_hops)) 9 3 nodes_bad_signature
           (String.list_byte_of_string directoryServerPubKey)
           (mkOrInfo "10.0.0.1:8000" [Byte.x0a] (replicate 16 Byte.x41))
           [mkOrInfo "10.0.0.2:8000" [Byte.x0b] (replicate 16 Byte.x42);
            mkOrInfo "10.0.0.3:8000" [Byte.x0c] (replicate 16 Byte.x43)]
           "hello" 0 guard_keys).
  - reflexivity.
  - reflexivity.
  - right. vm_compute. reflexivity.
  - reflexivity.
  - repeat constructor.
  - apply demo_rand_full.
  - reflexivity.
  - vm_compute. reflexivity.
Defined.

(* ===================================================================== *)
(** ** Further properties: polling *)

(** X13: a polling cell at a relay that is not the exit.  When the layer
    decoded under the circuit's key is not an exit layer and the next hop
    can be dialled, [DecryptPollingCell] forwards one cell with the same
    circuit id and the decoded payload to the next hop and returns the
    messages the next hop answered, as they are; the error the next hop
    answered, like the error of the decoding, is dropped. *)
Theorem polling_relay_returns_answer (lib : Library) (net : Network)
    (keys : gmap N (list byte)) (cid : N) (key data : list byte)
    (o : Onion) (e : option error) :
  keys !! cid = Some key ->
  aes_key_ok key ->
  result (decrypt_one_layer key data) = Ret (o, e) ->
  IsExitNode o = false ->
  rpc_Dial (NextAddress o) = None ->
  DecryptPollingCell keys (mkCell cid data)
  = mkM [EvDial (NextAddress o);
         EvCall (NextAddress o) "ORServer.DecryptPollingCell"
           (ArgCell (mkCell cid (Data o)));
         EvClose (NextAddress o)]
        (Ret (fst (call_DecryptPollingCell (NextAddress o)
                     (mkCell cid (Data o))), None)).
Proof.
  intros Hkey Hk Hdec Hexit Hdial.
  unfold DecryptPollingCell. cbn [CircuitId CellData].
  rewrite (lookup_key_present _ _ _ Hkey).
  rewrite (decrypt_one_layer_value _ _ _ Hk Hdec), bind_quiet.
  cbn [fst]. rewrite Hexit. unfold RelayPollingOnion, DialOR. rewrite Hdial.
  destruct (call_DecryptPollingCell (NextAddress o) (mkCell cid (Data o)))
    as [ack err]. reflexivity.
Qed.

Lemma polling_relay_returns_answer_witness :
  exists inner : list byte,
    DecryptPollingCell (lib := demo_lib)
      (net := faulty_net demo_nodes "10.0.0.2:8000" 0) guard_keys
      (mkCell 7 demo_onion)
    = mkM [EvDial "10.0.0.2:8000";
           EvCall "10.0.0.2:8000" "ORServer.DecryptPollingCell"
             (ArgCell (mkCell 7 inner));
           EvClose "10.0.0.2:8000"]
          (Ret ([], None)).
Proof.
  exists demo_inner.
  apply (polling_relay_returns_answer demo_lib
           (faulty_net demo_nodes "10.0.0.2:8000" 0) guard_keys 7
           (replicate 16 Byte.x41) demo_onion
           (mkOnion demo_inner false "10.0.0.2:8000") None).
  - reflexivity.
  - left; reflexivity.
  - vm_compute. reflexivity.
  - reflexivity.
  - reflexivity.
Defined.

(** X14: a polling cell at the exit.  When the decoded layer is an exit
    layer, the chat server its polling message names can be dialled and the
    server answers without error, [DecryptPollingCell] asks that server for
    the messages after the last id the polling message carries and returns
    the server's list. *)
Theorem polling_exit_returns_messages (lib : Library) (net : Network)
    (keys : gmap N (list byte)) (cid : N) (key data : list byte)
    (o : Onion) (e : option error) (poll : PollingMessage)
    (msgs : list string) :
  keys !! cid = Some key ->
  aes_key_ok key ->
  result (decrypt_one_layer key data) = Ret (o, e) ->
  IsExitNode o = true ->
  json_Unmarshal_PollingMessage (Data o) = poll ->
  rpc_Dial (PollIRCServerAddr poll) = None ->
  call_GetNewMessages (PollIRCServerAddr poll) (LastMessageId poll)
  = (msgs, None) ->
  DecryptPollingCell keys (mkCell cid data)
  = mkM [EvDial (PollIRCServerAddr poll);
         EvCall (PollIRCServerAddr poll) "CServer.GetNewMessages"
           (ArgInt (LastMessageId poll));
         EvClose (PollIRCServerAddr poll)]
        (Ret (msgs, None)).
Proof.
  intros Hkey Hk Hdec Hexit Hpoll Hdial Hcall.
  unfold DecryptPollingCell. cbn [CircuitId CellData].
  rewrite (lookup_key_present _ _ _ Hkey).
  rewrite (decrypt_one_layer_value _ _ _ Hk Hdec), bind_quiet.
  cbn [fst]. rewrite Hexit. unfold DeliverPollingMessage.
  rewrite Hpoll, Hdial, Hcall. reflexivity.
Qed.

Lemma polling_exit_returns_messages_witness :
  DecryptPollingCell (lib := demo_lib) (net := quiet_net demo_nodes)
    {[ 7%N := replicate 16 Byte.x43 ]} (mkCell 7 demo_poll_cell)
  = mkM [EvDial "127.0.0.1:7000";
         EvCall "127.0.0.1:7000" "CServer.GetNewMessages" (ArgInt 3);
         EvClose "127.0.0.1:7000"]
        (Ret ([], None)).
Proof.
  apply (polling_exit_returns_messages demo_lib (quiet_net demo_nodes)
           {[ 7%N := replicate 16 Byte.x43 ]} 7 (replicate 16 Byte.x43)
           demo_poll_cell (mkOnion demo_poll_payload true "") None
           (mkPollingMessage "127.0.0.1:7000" 3) []).
  - reflexivity.
  - left; reflexivity.
  - vm_compute. reflexivity.
  - reflexivity.
  - vm_compute. reflexivity.
  - reflexivity.
  - reflexivity.
Defined.

(* ===================================================================== *)
(** ** Further properties: renewals that go through *)

Lemma GetCircuitFromDServer_over_old {lib : Library} {net : Network}
    (op : OnionProxy) (cid : N) (k : nat) (nodes : OnionRouterInfos)
    (pk : ecdsa_PublicKey) (old : list orInfo) :
  call_GetNodes = (nodes, None) ->
  SignerPubKey nodes = Some pk ->
  PubKeyToString pk = directoryServerPubKey ->
  ecdsa_Verify pk (Hash nodes) (SigR nodes) (SigS nodes) = true ->
  Forall (fun info => rpc_Dial (Address info) = None) (ORInfos nodes) ->
  ORInfoByHopNum op = hop_table old ->
  result (GetCircuitFromDServer op cid k)
  = Ret (mkOnionProxy (addr op) (username op) cid (ircServerAddr op)
           (hop_table (built_hops k 0 (ORInfos nodes)
                       ++ drop (length (ORInfos nodes)) old))
           (dirServer op), None).
Proof.
  intros Hnodes Hpk Hstr Hsig Hdial Hold. unfold GetCircuitFromDServer.
  rewrite Hnodes, Hpk, Hstr, String.eqb_refl, Hsig.
  cbn [HandleFatalError negb orb]. rewrite !result_bind.
  cbn [emit ret result ORInfoByHopNum].
  rewrite (GetCircuit_loop_builds net cid k _ _ 0 Hdial), Hold.
  unfold hop_table. rewrite map_seq_union_app, length_built_hops.
  reflexivity.
Qed.

Lemma GetNewCircuitEveryTwoMinutes_turn {lib : Library} {net : Network}
    (op : OnionProxy) (turns : nat) (cids : nat -> N) (i k : nat) :
  GetNewCircuitEveryTwoMinutes op (S turns) cids i k
  = (run emit (EvSleep renewal_wait);
     do built <- GetCircuitFromDServer op (cids i) k;
     match snd built with
     | Some err => ret (fst built, Some err)
     | None =>
       GetNewCircuitEveryTwoMinutes (fst built) turns cids (S i)
         (k + length (ORInfos (fst call_GetNodes)))
     end).
Proof. reflexivity. Qed.

(** X15: renewals under a directory the proxy trusts.  While every node
    set is trusted and every relay can be dialled, the loop rebuilds the
    circuit on each turn: after [turns + 1] turns the proxy holds the circuit
    id drawn last and, for the relays listed, the keys generated in the last
    build, none of them a key of an earlier build; hops of the first circuit
    beyond the relays listed are still in the table. *)
Theorem renewal_rebuilds_each_turn (lib : Library) (net : Network)
    (turns : nat) (cids : nat -> N) (nodes : OnionRouterInfos)
    (pk : ecdsa_PublicKey) (op : OnionProxy) (i k : nat) (old : list orInfo) :
  call_GetNodes = (nodes, None) ->
  SignerPubKey nodes = Some pk ->
  PubKeyToString pk = directoryServerPubKey ->
  ecdsa_Verify pk (Hash nodes) (SigR nodes) (SigS nodes) = true ->
  Forall (fun info => rpc_Dial (Address info) = None) (ORInfos nodes) ->
  ORInfoByHopNum op = hop_table old ->
  exists op' : OnionProxy,
    result (GetNewCircuitEveryTwoMinutes op (S turns) cids i k)
    = Ret (op', None) /\
    circuitId op' = cids (i + turns) /\
    ORInfoByHopNum op'
    = hop_table (built_hops (k + turns * length (ORInfos nodes)) 0
                   (ORInfos nodes)
                 ++ drop (length (ORInfos nodes)) old).
Proof.
  intros Hnodes Hpk Hstr Hsig Hdial. revert op i k old.
  induction turns as [|turns IH]; intros op i k old Hold.
  - cbn [GetNewCircuitEveryTwoMinutes]. rewrite !result_bind.
    cbn [emit result].
    rewrite (GetCircuitFromDServer_over_old op (cids i) k nodes pk old
               Hnodes Hpk Hstr Hsig Hdial Hold).
    cbn [snd fst]. eexists. split; [reflexivity|].
    cbn [circuitId ORInfoByHopNum]. rewrite !Nat.add_0_r. split; reflexivity.
  - rewrite GetNewCircuitEveryTwoMinutes_turn, !result_bind.
    cbn [emit result].
    rewrite (GetCircuitFromDServer_over_old op (cids i) k nodes pk old
               Hnodes Hpk Hstr Hsig Hdial Hold).
    cbn [snd fst]. rewrite Hnodes. cbn [fst].
    set (op1 := mkOnionProxy _ _ _ _ _ _).
    destruct (IH op1 (S i) (k + length (ORInfos nodes))
                (built_hops k 0 (ORInfos nodes)
                 ++ drop (length (ORInfos nodes)) old) eq_refl)
      as (op' & Hres & Hcid & Htbl).
    exists op'. split; [exact Hres|]. split.
    + rewrite Hcid. f_equal. lia.
    + rewrite Htbl.
      rewrite drop_app_length' by (rewrite length_built_hops; reflexivity).
      do 3 f_equal. lia.
Qed.

Lemma renewal_rebuilds_each_turn_witness :
  exists op' : OnionProxy,
    result (GetNewCircuitEveryTwoMinutes (lib := demo_lib)
              (net := quiet_net two_nodes) (demo_proxy (hop_table demo_hops))
              3 (fun i => N.of_nat (100 + i)) 0 3)
    = Ret (op', None) /\
    circuitId op' = 102%N /\
    ORInfoByHopNum op'
    = hop_table [ mkOrInfo "10.0.0.8:8000" [Byte.x0d] (replicate 16 Byte.x48);
                  mkOrInfo "10.0.0.9:8000" [Byte.x0e] (replicate 16 Byte.x49);
                  mkOrInfo "10.0.0.3:8000" [Byte.x0c] (replicate 16 Byte.x43) ].
Proof.
  apply (renewal_rebuilds_each_turn demo_lib (quiet_net two_nodes) 2
           (fun i => N.of_nat (100 + i)) two_nodes
           (String.list_byte_of_string directoryServerPubKey)
           (demo_proxy (hop_table demo_hops)) 0 3 demo_hops).
  - reflexivity.
  - reflexivity.
  - vm_compute. reflexivity.
  - vm_compute. reflexivity.
  - repeat constructor.
  - reflexivity.
Defined.

(* ===================================================================== *)
(** ** Further properties: from [Connect] to the first message *)

Lemma built_hops_keys_ok {lib : Library} (k s : nat)
    (infos : list OnionRouterInfo) :
  (forall j : nat, aes_key_ok (GenerateAESKey j)) ->
  Forall (fun h => aes_key_ok (sharedKey h)) (built_hops k s infos).
Proof.
  intros Hgen. apply Forall_lookup. intros i h Hi.
  unfold built_hops in Hi. rewrite list_lookup_imap in Hi.
  destruct (infos !! i); [|discriminate]. cbn in Hi.
  injection Hi as <-. apply Hgen.
Qed.

Lemma built_hops_addresses {lib : Library} (k s : nat)
    (infos : list OnionRouterInfo) :
  address <$> built_hops k s infos = Address <$> infos.
Proof.
  unfold built_hops. rewrite fmap_imap.
  apply list_eq. intros i. rewrite list_lookup_imap, list_lookup_fmap.
  destruct (infos !! i); reflexivity.
Qed.

Lemma SendMessage_complete {lib : Library} {net : Network} (op : OnionProxy)
    (h0 : orInfo) (rest : list orInfo) (message : string) (r : nat) :
  ORInfoByHopNum op = hop_table (h0 :: rest) ->
  Forall (fun h => aes_key_ok (sharedKey h)) (h0 :: rest) ->
  (forall (d : list byte) (e : bool) (a : string),
     a = "" \/ a ∈ address <$> h0 :: rest ->
     json_Unmarshal_Onion (json_Marshal_Onion (mkOnion d e a))
     = (mkOnion d e a, None)) ->
  (forall j : nat, BlockSize <= length (rand_Reader j)) ->
  rpc_Dial (address h0) = None ->
  (forall cell : Cell, call_DecryptChatMessageCell (address h0) cell = None) ->
  exists (onion : list byte) (layers : list (Onion * option error)),
    SendMessage op message r
    = mkM [EvDial (address h0);
           EvCall (address h0) "ORServer.DecryptChatMessageCell"
             (ArgCell (mkCell (circuitId op) onion));
           EvClose (address h0)]
          (Ret (true, None)) /\
    result (unwrap_layers (sharedKey <$> h0 :: rest) onion)
    = Ret (layers,
           json_Marshal_ChatMessage
             (mkChatMessage (ircServerAddr op) (username op) message)).
Proof.
  intros Htbl Hkeys Hjson Hrand Hdial Hcall.
  destruct (SendMessage_value op h0 rest message r Htbl Hkeys Hrand Hdial)
    as (onion & Hon & Htrace & Hres).
  destruct (OnionizeData_loop_unwrap (h0 :: rest) Hkeys Hjson
              (length (h0 :: rest)) r
              (json_Marshal_ChatMessage
                 (mkChatMessage (ircServerAddr op) (username op) message))
              ltac:(lia)) as (onion' & layers & Hloop & Hun & _).
  rewrite take_ge in Hun by (rewrite length_fmap; lia).
  assert (onion' = onion) as ->.
  { unfold OnionizeData in Hon. rewrite Htbl, size_hop_table in Hon.
    rewrite Hon in Hloop. cbn in Hloop. congruence. }
  exists onion, layers. split; [|exact Hun].
  rewrite (M_eta (SendMessage op message r)), Htrace, (Hres (Hcall _)).
  reflexivity.
Qed.

(** X16: from [Connect] to the first message.  A proxy with no circuit
    connects under a user name to a directory it trusts, whose relays can all
    be dialled; the keys generated are keys AES accepts.  [Connect] returns no
    error and starts the renewals, and the first [SendMessage] then sends to
    the first relay listed one cell under the circuit id drawn in [Connect];
    the keys generated for the relays, in the order listed, unwrap it to the
    chat message of that user name. *)
Theorem Connect_then_SendMessage (lib : Library) (net : Network)
    (op : OnionProxy) (user message : string) (cid : N) (k r : nat)
    (nodes : OnionRouterInfos) (pk : ecdsa_PublicKey)
    (first : OnionRouterInfo) (others : list OnionRouterInfo) :
  ORInfoByHopNum op = ∅ ->
  call_GetNodes = (nodes, None) ->
  SignerPubKey nodes = Some pk ->
  PubKeyToString pk = directoryServerPubKey ->
  ecdsa_Verify pk (Hash nodes) (SigR nodes) (SigS nodes) = true ->
  ORInfos nodes = first :: others ->
  Forall (fun info => rpc_Dial (Address info) = None) (ORInfos nodes) ->
  (forall j : nat, aes_key_ok (GenerateAESKey j)) ->
  (forall (d : list byte) (e : bool) (a : string),
     a = "" \/ a ∈ Address <$> ORInfos nodes ->
     json_Unmarshal_Onion (json_Marshal_Onion (mkOnion d e a))
     = (mkOnion d e a, None)) ->
  (forall j : nat, BlockSize <= length (rand_Reader j)) ->
  (forall cell : Cell,
     call_DecryptChatMessageCell (Address first) cell = None) ->
  exists (op' : OnionProxy) (onion : list byte)
         (layers : list (Onion * option error)),
    result (Connect op user cid k) = Ret (op', true, None) /\
    SendMessage op' message r
    = mkM [EvDial (Address first);
           EvCall (Address first) "ORServer.DecryptChatMessageCell"
             (ArgCell (mkCell cid onion));
           EvClose (Address first)]
          (Ret (true, None)) /\
    result (unwrap_layers (sharedKey <$> built_hops k 0 (ORInfos nodes)) onion)
    = Ret (layers,
           json_Marshal_ChatMessage
             (mkChatMessage (ircServerAddr op) user message)).
Proof.
  intros Hempty Hnodes Hpk Hstr Hsig Hinfos Hdial Hgen Hjson Hrand Hcall.
  set (op1 := mkOnionProxy (addr op) user (circuitId op) (ircServerAddr op)
                (ORInfoByHopNum op) (dirServer op)).
  pose proof (GetCircuitFromDServer_builds net op1 cid k nodes pk
                Hnodes Hpk Hstr Hsig Hdial Hempty) as Hbuilt.
  cbn [addr username ircServerAddr dirServer op1] in Hbuilt.
  set (op' := mkOnionProxy (addr op) user cid (ircServerAddr op)
                (hop_table (built_hops k 0 (ORInfos nodes))) (dirServer op))
    in *.
  assert (Hconnect : result (Connect op user cid k) = Ret (op', true, None)).
  { unfold Connect, GetNewCircuit. fold op1. rewrite !result_bind, Hbuilt.
    reflexivity. }
  assert (Hshape : exists h0 rest,
            built_hops k 0 (ORInfos nodes) = h0 :: rest /\
            address h0 = Address first).
  { rewrite Hinfos. unfold built_hops. cbn [imap].
    eexists _, _. split; reflexivity. }
  destruct Hshape as (h0 & rest & Hhops & Hfirst).
  assert (Hdial0 : rpc_Dial (address h0) = None).
  { rewrite Hfirst. rewrite Hinfos in Hdial.
    apply Forall_cons in Hdial as [Hd _]. exact Hd. }
  assert (Hkeys : Forall (fun h => aes_key_ok (sharedKey h)) (h0 :: rest)).
  { rewrite <- Hhops. apply built_hops_keys_ok. exact Hgen. }
  assert (Hjson' : forall (d : list byte) (e : bool) (a : string),
            a = "" \/ a ∈ address <$> h0 :: rest ->
            json_Unmarshal_Onion (json_Marshal_Onion (mkOnion d e a))
            = (mkOnion d e a, None)).
  { intros d e a Ha. apply Hjson.
    rewrite <- Hhops, built_hops_addresses in Ha. exact Ha. }
  assert (Hcall0 : forall cell : Cell,
            call_DecryptChatMessageCell (address h0) cell = None).
  { intros cell. rewrite Hfirst. apply Hcall. }
  assert (Htbl : ORInfoByHopNum op' = hop_table (h0 :: rest)).
  { cbn [ORInfoByHopNum op']. rewrite Hhops. reflexivity. }
  destruct (SendMessage_complete op' h0 rest message r Htbl Hkeys Hjson'
              Hrand Hdial0 Hcall0) as (onion & layers & Hsend & Hun).
  exists op', onion, layers. split; [exact Hconnect|]. split.
  - rewrite Hsend, Hfirst. reflexivity.
  - rewrite Hhops. exact Hun.
Qed.

Lemma demo_keys_ok (j : nat) :
  aes_key_ok (GenerateAESKey (Library := demo_lib) j).
Proof. left. apply length_replicate. Qed.

Lemma Connect_then_SendMessage_witness :
  exists (op' : OnionProxy) (onion : list byte)
         (layers : list (Onion * option error)),
    result (Connect (lib := demo_lib) (net := quiet_net demo_nodes)
              (demo_proxy ∅) "bob" 9 0) = Ret (op', true, None) /\
    SendMessage (lib := demo_lib) (net := quiet_net demo_nodes) op' "hello" 0
    = mkM [EvDial "10.0.0.1:8000";
           EvCall "10.0.0.1:8000" "ORServer.DecryptChatMessageCell"
             (ArgCell (mkCell 9 onion));
           EvClose "10.0.0.1:8000"]
          (Ret (true, None)) /\
    result (unwrap_layers (lib := demo_lib)
              [replicate 16 Byte.x41; replicate 16 Byte.x42;
               replicate 16 Byte.x43] onion)
    = Ret (layers,
           demo_Marshal_ChatMessage
             (mkChatMessage "127.0.0.1:7000" "bob" "hello")).
Proof.
  apply (Connect_then_SendMessage demo_lib (quiet_net demo_nodes)
           (demo_proxy ∅) "bob" "hello" 9 0 0 demo_nodes
           (String.list_byte_of_string directoryServerPubKey)
           (mkOnionRouterInfo "10.0.0.1:8000" [Byte.x0a])
           [mkOnionRouterInfo "10.0.0.2:8000" [Byte.x0b];
            mkOnionRouterInfo "10.0.0.3:8000" [Byte.x0c]]).
  - reflexivity.
  - reflexivity.
  - reflexivity.
  - vm_compute. reflexivity.
  - vm_compute. reflexivity.
  - reflexivity.
  - repeat constructor.
  - apply demo_keys_ok.
  - intros d e a _. apply demo_codec_round_trip.
  - apply demo_rand_full.
  - reflexivity.
Defined.
